(** * Databricks workspace client and chat endpoint: a shallow embedding

    This development embeds in Rocq the parts of
    [src/src/databricks_client.py] (class [DatabricksClient]) and of
    [src/backend/main.py] (route [query_pdf]) that decide the properties of
    the transfer codec, the export fallback protocol, the listing and SQL
    operations and the chat boundary, and proves those properties.

    Conventions.
    - Python [bytes] is [list byte].
    - A Python [str] whose characters are inspected (the export payload,
      which gets ASCII- or UTF-8-encoded) is a list of Unicode code points.
      A [str] used only up to equality and concatenation (paths, ids,
      messages, column names) is a [string].
    - Calls to the remote workspace, to the HTTP library and to the chat
      collaborators are oracles over an explicit world state; Python
      exceptions are the [Raise] outcome of a state-and-exception monad and
      [try ... except Exception] is [try_catch]. *)

From Stdlib Require Import NArith ZArith List String Ascii Bool Lia.
From Stdlib.Strings Require Import Byte.
From Stdlib Require Import DecimalString.
From Stdlib Require Import DecimalPos DecimalN.
From stdpp Require Import gmap strings list.

Local Open Scope N_scope.

(** ** Exceptions *)

Inductive exn_class :=
  | AttributeError | TypeError | ValueError | KeyError
  | UnicodeEncodeError | BinasciiError | HTTPException
  | RemoteError.

(** An exception instance: its class and the text [str(e)] gives. Every class
    above derives from [Exception], so [except Exception] catches all. *)
Record exn := mk_exn { exn_type : exn_class; exn_str : string }.

Inductive res (A : Type) :=
  | Ok (a : A)
  | Raise (e : exn).
Arguments Ok {A} a.
Arguments Raise {A} e.

(** ** Bytes *)

Definition byte_of_N (n : N) : byte :=
  match Byte.of_N (n mod 256) with
  | Some b => b
  | None => x00
  end.

Definition bytes_of_string (s : string) : list byte := list_byte_of_string s.

Definition decimal (n : N) : string := NilZero.string_of_uint (N.to_uint n).

(** ** Base64 (Python's [base64] over [binascii]) *)

Module Base64.

Definition table_b2a_base64 : list byte :=
  bytes_of_string
    "ABCDEFGHIJKLMNOPQRSTUVWXYZabcdefghijklmnopqrstuvwxyz0123456789+/".

Definition BASE64_PAD : byte := "=".

Definition b2a (n : N) : byte := nth (N.to_nat n) table_b2a_base64 x00.

Fixpoint index_of (c : byte) (tbl : list byte) (i : N) : option N :=
  match tbl with
  | [] => None
  | t :: tbl' => if Byte.eqb c t then Some i else index_of c tbl' (i + 1)
  end.

(** [table_a2b_base64]: the value of an alphabet character, [None] for
    every other byte (the C table stores an out-of-range marker). *)
Definition a2b (c : byte) : option N := index_of c table_b2a_base64 0.

(** [binascii.b2a_base64(data, newline=False)]: three input bytes give four
    alphabet characters; a tail of one or two bytes is padded with [=]. *)
Fixpoint b2a_base64 (bin : list byte) : list byte :=
  match bin with
  | [] => []
  | [a] =>
      let a := Byte.to_N a in
      [ b2a (N.shiftr a 2); b2a (N.shiftl (N.land a 3) 4);
        BASE64_PAD; BASE64_PAD ]
  | [a; b] =>
      let a := Byte.to_N a in
      let b := Byte.to_N b in
      [ b2a (N.shiftr a 2);
        b2a (N.lor (N.shiftl (N.land a 3) 4) (N.shiftr b 4));
        b2a (N.shiftl (N.land b 15) 2);
        BASE64_PAD ]
  | a :: b :: c :: rest =>
      let a := Byte.to_N a in
      let b := Byte.to_N b in
      let c := Byte.to_N c in
      b2a (N.shiftr a 2)
      :: b2a (N.lor (N.shiftl (N.land a 3) 4) (N.shiftr b 4))
      :: b2a (N.lor (N.shiftl (N.land b 15) 2) (N.shiftr c 6))
      :: b2a (N.land c 63)
      :: b2a_base64 rest
  end.

Definition emit (b : byte) (r : res (list byte)) : res (list byte) :=
  match r with
  | Ok l => Ok (b :: l)
  | Raise e => Raise e
  end.

Definition incorrect_padding : exn :=
  mk_exn BinasciiError "Incorrect padding".

Definition invalid_length (produced : N) : exn :=
  mk_exn BinasciiError
    ("Invalid base64-encoded string: number of data characters ("
     +:+ decimal (produced / 3 * 4 + 1)
     +:+ ") cannot be 1 more than a multiple of 4").

(** The loop of [binascii.a2b_base64] with [strict_mode] off. [quad_pos],
    [leftchar] and [pads] are the C locals; [produced] counts the bytes
    written so far. A pad that completes a quad ends the decoding
    ([goto done]); any other byte outside the alphabet is skipped.  *)
Fixpoint a2b_loop (ascii : list byte) (quad_pos leftchar pads produced : N)
  : res (list byte) :=
  match ascii with
  | [] =>
      if quad_pos =? 0 then Ok []
      else if quad_pos =? 1 then Raise (invalid_length produced)
      else Raise incorrect_padding
  | this_ch :: rest =>
      if Byte.eqb this_ch BASE64_PAD then
        if 2 <=? quad_pos then
          if 4 <=? quad_pos + (pads + 1) then Ok []
          else a2b_loop rest quad_pos leftchar (pads + 1) produced
        else a2b_loop rest quad_pos leftchar pads produced
      else
        match a2b this_ch with
        | None => a2b_loop rest quad_pos leftchar pads produced
        | Some v =>
            if quad_pos =? 0 then a2b_loop rest 1 v 0 produced
            else if quad_pos =? 1 then
              emit (byte_of_N (N.lor (N.shiftl leftchar 2) (N.shiftr v 4)))
                   (a2b_loop rest 2 (N.land v 15) 0 (produced + 1))
            else if quad_pos =? 2 then
              emit (byte_of_N (N.lor (N.shiftl leftchar 4) (N.shiftr v 2)))
                   (a2b_loop rest 3 (N.land v 3) 0 (produced + 1))
            else
              emit (byte_of_N (N.lor (N.shiftl leftchar 6) v))
                   (a2b_loop rest 0 0 0 (produced + 1))
        end
  end.

Definition a2b_base64 (ascii : list byte) : res (list byte) :=
  a2b_loop ascii 0 0 0 0.

End Base64.

(** ** Python text *)

(** A [str] as the sequence of its code points, each at most [0x10FFFF].
    Lone surrogates ([0xD800]..[0xDFFF]) are legal in a [str] (a JSON
    escape produces one) but have no UTF-8 encoding. *)
Definition pystr := list N.

Definition is_surrogate (cp : N) : bool := (0xD800 <=? cp) && (cp <=? 0xDFFF).

(** [bytes.decode('utf-8')] on ASCII-only bytes, which is all
    [b64encode] produces. *)
Definition ascii_text (b : list byte) : pystr := map Byte.to_N b.

(** [str.encode('ascii')]. *)
Fixpoint encode_ascii (s : pystr) : res (list byte) :=
  match s with
  | [] => Ok []
  | cp :: s' =>
      if cp <? 128 then
        match encode_ascii s' with
        | Ok l => Ok (byte_of_N cp :: l)
        | Raise e => Raise e
        end
      else Raise (mk_exn UnicodeEncodeError
                    "'ascii' codec can't encode character: ordinal not in range(128)")
  end.

Definition utf8_code_point (cp : N) : list byte :=
  if cp <? 0x80 then [byte_of_N cp]
  else if cp <? 0x800 then
    [ byte_of_N (N.lor 0xC0 (N.shiftr cp 6));
      byte_of_N (N.lor 0x80 (N.land cp 0x3F)) ]
  else if cp <? 0x10000 then
    [ byte_of_N (N.lor 0xE0 (N.shiftr cp 12));
      byte_of_N (N.lor 0x80 (N.land (N.shiftr cp 6) 0x3F));
      byte_of_N (N.lor 0x80 (N.land cp 0x3F)) ]
  else
    [ byte_of_N (N.lor 0xF0 (N.shiftr cp 18));
      byte_of_N (N.lor 0x80 (N.land (N.shiftr cp 12) 0x3F));
      byte_of_N (N.lor 0x80 (N.land (N.shiftr cp 6) 0x3F));
      byte_of_N (N.lor 0x80 (N.land cp 0x3F)) ].

(** [str.encode('utf-8')] with the default strict error handler. *)
Fixpoint encode_utf8 (s : pystr) : res (list byte) :=
  match s with
  | [] => Ok []
  | cp :: s' =>
      if is_surrogate cp then
        Raise (mk_exn UnicodeEncodeError
                 "'utf-8' codec can't encode character: surrogates not allowed")
      else
        match encode_utf8 s' with
        | Ok l => Ok (utf8_code_point cp ++ l)
        | Raise e => Raise e
        end
  end.

(** The payload of an export response: [str] or [bytes]. *)
Inductive content :=
  | CStr (s : pystr)
  | CBytes (b : list byte).

(** Truth value of a payload: empty text and empty bytes are falsy. *)
Definition content_truthy (c : content) : bool :=
  match c with
  | CStr [] | CBytes [] => false
  | _ => true
  end.

(** [base64.b64encode(data)]. *)
Definition b64encode (data : list byte) : list byte := Base64.b2a_base64 data.

(** [base64.b64decode(s)] with the default [validate=False]: a [str] must be
    ASCII ([_bytes_from_decode_data]), then [binascii.a2b_base64]. *)
Definition b64decode (s : content) : res (list byte) :=
  match s with
  | CBytes b => Base64.a2b_base64 b
  | CStr t =>
      match encode_ascii t with
      | Ok b => Base64.a2b_base64 b
      | Raise _ =>
          Raise (mk_exn ValueError
                   "string argument should contain only ASCII characters")
      end
  end.

(** ** The state-and-exception monad *)

Section Monad.
Context {W : Type}.

Definition M (A : Type) : Type := W -> res A * W.

Definition ret {A} (a : A) : M A := fun w => (Ok a, w).

Definition raise {A} (e : exn) : M A := fun w => (Raise e, w).

Definition bind {A B} (m : M A) (k : A -> M B) : M B :=
  fun w =>
    match m w with
    | (Ok a, w') => k a w'
    | (Raise e, w') => (Raise e, w')
    end.

(** [try: m  except Exception as e: h e]. Effects of [m] up to the raise
    stay in the world. *)
Definition try_catch {A} (m : M A) (h : exn -> M A) : M A :=
  fun w =>
    match m w with
    | (Ok a, w') => (Ok a, w')
    | (Raise e, w') => h e w'
    end.

(** Lift the outcome of a pure library call. *)
Definition lift {A} (r : res A) : M A := fun w => (r, w).

End Monad.

Notation "x <- m ;; k" := (bind m (fun x => k))
  (at level 100, m at next level, right associativity).

(** ** Paths *)

(** [str.lower()] on the characters that decide the suffix test below: no
    character outside [A-Z] lowers to one of [.], [p], [d], [f]. *)
Definition lower_char (c : ascii) : ascii :=
  let n := N_of_ascii c in
  if (65 <=? n) && (n <=? 90) then ascii_of_N (n + 32) else c.

Fixpoint lower (s : string) : string :=
  match s with
  | EmptyString => EmptyString
  | String c s' => String (lower_char c) (lower s')
  end.

Definition endswith (s suffix : string) : bool :=
  let n := String.length s in
  let k := String.length suffix in
  (k <=? n)%nat && String.eqb (substring (n - k) k s) suffix.

Fixpoint startswith (b prefix : list byte) : bool :=
  match prefix, b with
  | [], _ => true
  | p :: prefix', x :: b' => Byte.eqb x p && startswith b' prefix'
  | _ :: _, [] => false
  end.

(** ** [src/src/databricks_client.py] *)

Module DatabricksClient.

(** *** What the remote workspace answers *)

Inductive ExportFormat := SOURCE | HTML | JUPYTER.

(** [workspace.export] result: its [content] attribute is [None], a [str]
    or [bytes]. The response object itself is always truthy. *)
Record ExportResponse := { content_of : option content }.

(** What [workspace.download(path)] returns. *)
Inductive download_value :=
  | DlNone                      (* None *)
  | DlBytes (b : list byte)     (* bytes; falsy when empty *)
  | DlStream.                   (* a truthy object without len(), such as
                                   a binary stream *)

(** What [response.json()] and the accesses to its result do. *)
Inductive json_result :=
  | JsonRaises (e : exn)        (* json() or the membership test raises *)
  | JsonWithout                 (* 'content' in result is False *)
  | JsonContentStr (s : pystr)  (* result['content'] is this str *)
  | JsonContentOther.           (* result['content'] is not a str, or the
                                   subscript itself raises TypeError *)

Record http_response := { status_code : Z; json : json_result }.

(** An enum member of the SDK, identified by its [.value]; always truthy. *)
Record enum_member := { value : string }.

Record ObjectInfo := {
  obj_path : string;
  obj_object_type : option enum_member;
  obj_language : option enum_member
}.

Record EndpointInfo := { id : option string }.

Inductive StatementState :=
  | PENDING | RUNNING | SUCCEEDED | FAILED | CANCELED | CLOSED.

Record ServiceError := { message : option string }.

Record StatementStatus := {
  state : option StatementState;
  error : option ServiceError
}.

(** [hasattr(obj, name)]: the attribute may be missing from the object. *)
Inductive attr (A : Type) :=
  | NoAttr
  | Attr (a : A).
Arguments NoAttr {A}.
Arguments Attr {A} a.

Record ColumnInfo := { name : string }.
Record Schema := { columns : option (list ColumnInfo) }.
Record Manifest := { manifest_schema : attr (option Schema) }.

(** A cell of the result: a string, or [None] for SQL NULL. *)
Definition sql_value := option string.

Record ResultData := {
  data_array : option (list (list sql_value));
  schema : attr (option Schema);
  manifest : attr (option Manifest)
}.

Record StatementResponse := {
  status : option StatementStatus;
  result : option ResultData;
  statement_id : option string
}.

(** The capabilities [self.workspace_client] and [requests] offer, over a
    world [W] they may change. The listing yields its items and then
    possibly fails. *)
Record WorkspaceClient (W : Type) := {
  config_host : string;
  config_token : string;
  workspace_export : string -> ExportFormat -> @M W (option ExportResponse);
  workspace_download : string -> @M W download_value;
  requests_get : string -> string -> string -> string -> @M W http_response;
  workspace_list : string -> W -> (list ObjectInfo * option exn) * W;
  warehouses_list : @M W (list EndpointInfo);
  execute_statement :
    option string -> string -> string -> @M W StatementResponse
}.
Arguments config_host {W}.
Arguments config_token {W}.
Arguments workspace_export {W}.
Arguments workspace_download {W}.
Arguments requests_get {W}.
Arguments workspace_list {W}.
Arguments warehouses_list {W}.
Arguments execute_statement {W}.

(** *** The decode step of [export_workspace_file] *)

Definition JVBERi : list byte := bytes_of_string "JVBERi".

(** The body of the inner [try]: bytes that start with [JVBERi] are
    base64-decoded, other bytes are returned as they are, text is
    base64-decoded. *)
Definition decode_try (c : content) : res (list byte) :=
  match c with
  | CBytes b => if startswith b JVBERi then b64decode (CBytes b) else Ok b
  | CStr s => b64decode (CStr s)
  end.

(** The [except Exception as decode_error] handler. *)
Definition decode_except (c : content) : res (list byte) :=
  match c with
  | CStr s => encode_utf8 s
  | CBytes b => Ok b
  end.

Definition decode_content (c : content) : res (list byte) :=
  match decode_try c with
  | Ok file_content => Ok file_content
  | Raise decode_error => decode_except c
  end.

(** *** Truth values the export protocol tests *)

(** [exported_content]: [None] or a response object. *)
Definition truthy (r : option ExportResponse) : bool :=
  match r with
  | Some _ => true
  | None => false
  end.

(** [exported_content and exported_content.content]. *)
Definition content_if_any (r : option ExportResponse) : option content :=
  match r with
  | Some {| content_of := Some c |} => if content_truthy c then Some c else None
  | _ => None
  end.

Definition has_content (r : option ExportResponse) : bool :=
  match content_if_any r with
  | Some _ => true
  | None => false
  end.

Definition is_pdf_path (workspace_path : string) : bool :=
  endswith (lower workspace_path) ".pdf".

Inductive loop_step (A : Type) :=
  | Break (a : A)
  | Continue (a : A).
Arguments Break {A} a.
Arguments Continue {A} a.

Definition no_len : exn :=
  mk_exn TypeError "object has no len()".

Definition not_base64_input : exn :=
  mk_exn TypeError
    "argument should be a bytes-like object or ASCII string".


(** *** Results handed back to callers *)

(** An entry of [list_workspace_files]: the dict with keys [path],
    [object_type] and [language]. *)
Record FileEntry := {
  path : string;
  object_type : string;
  language : option string
}.

(** The dicts [execute_sql_query] returns, by their key sets:
    [{success: True, data, statement_id, warehouse_id}],
    [{success: False, error}] and [{success: False, error, statement_id}]. *)
Inductive sql_result :=
  | SqlSuccess (data : list (gmap string sql_value))
               (stmt_id : option string) (warehouse_id : option string)
  | SqlFailure (error : string)
  | SqlFailureOf (error : string) (stmt_id : option string).

Definition success (r : sql_result) : bool :=
  match r with
  | SqlSuccess _ _ _ => true
  | _ => false
  end.

(** Truth value of an optional [str]: [None] and the empty text are
    falsy. *)
Definition str_truthy (s : option string) : bool :=
  match s with
  | Some s => negb (String.eqb s "")
  | None => false
  end.

Definition file_entry (obj : ObjectInfo) : FileEntry :=
  {| path := obj_path obj;
     object_type := match obj_object_type obj with
                    | Some t => value t
                    | None => "unknown"
                    end;
     language := match obj_language obj with
                 | Some l => Some (value l)
                 | None => None
                 end |}.

(** The [for obj in objects] loop: [files.append] for each item. *)
Fixpoint append_entries (objects : list ObjectInfo) (files : list FileEntry)
  : list FileEntry :=
  match objects with
  | [] => files
  | obj :: objects' => append_entries objects' (files ++ [file_entry obj])
  end.

(** [f"col_{i}"]. *)
Definition generic_name (i : nat) : string :=
  "col_" +:+ decimal (N.of_nat i).

Definition none_not_iterable : exn :=
  mk_exn TypeError "'NoneType' object is not iterable".

Definition none_has_no (attribute : string) : exn :=
  mk_exn AttributeError
    ("'NoneType' object has no attribute '" +:+ attribute +:+ "'").

(** [[col.name for col in schema.columns]]. *)
Definition column_names (s : Schema) : res (list string) :=
  match columns s with
  | Some cols => Ok (map name cols)
  | None => Raise none_not_iterable
  end.

(** The [try] body of the column extraction: the new value of [columns],
    which starts as the empty list. *)
Definition schema_columns (r : ResultData) : res (list string) :=
  match schema r with
  | Attr (Some s) => column_names s
  | _ =>
      match manifest r with
      | Attr (Some m) =>
          match manifest_schema m with
          | Attr (Some s) => column_names s
          | Attr None => Raise (none_has_no "columns")
          | NoAttr => Ok []
          end
      | _ => Ok []
      end
  end.

(** Column extraction with its [except Exception as schema_error]
    handler: generic names for the positions of the first row. *)
Definition recover_columns (r : ResultData) (rows : list (list sql_value))
  : list string :=
  match schema_columns r with
  | Ok cols => cols
  | Raise schema_error =>
      match rows with
      | first_row :: _ => map generic_name (seq 0 (length first_row))
      | [] => []
      end
  end.

(** [columns[i] if i < len(columns) else f"col_{i}"]. *)
Definition column_name (cols : list string) (i : nat) : string :=
  if (i <? length cols)%nat then nth i cols ""%string else generic_name i.

(** [for i, value in enumerate(row): row_dict[column_name] = value],
    from position [i] on. *)
Fixpoint fill_row (cols : list string) (i : nat) (row : list sql_value)
    (row_dict : gmap string sql_value) : gmap string sql_value :=
  match row with
  | [] => row_dict
  | v :: row' =>
      fill_row cols (S i) row' (<[column_name cols i := v]> row_dict)
  end.

Definition row_to_dict (cols : list string) (row : list sql_value)
  : gmap string sql_value :=
  fill_row cols 0 row ∅.

(** [result_data] of a statement that succeeded. *)
Definition extract_rows (r : option ResultData)
  : list (gmap string sql_value) :=
  match r with
  | Some rd =>
      match data_array rd with
      | Some (first_row :: more) =>
          let rows := first_row :: more in
          map (row_to_dict (recover_columns rd rows)) rows
      | _ => []
      end
  | None => []
  end.

Definition state_str (s : option StatementState) : string :=
  match s with
  | None => "None"
  | Some PENDING => "StatementState.PENDING"
  | Some RUNNING => "StatementState.RUNNING"
  | Some SUCCEEDED => "StatementState.SUCCEEDED"
  | Some FAILED => "StatementState.FAILED"
  | Some CANCELED => "StatementState.CANCELED"
  | Some CLOSED => "StatementState.CLOSED"
  end.

Definition is_succeeded (s : option StatementState) : bool :=
  match s with
  | Some SUCCEEDED => true
  | _ => false
  end.

Definition failure_message (st : StatementStatus) : string :=
  let error_msg := "Query failed with state: " +:+ state_str (state st) in
  match error st with
  | Some err =>
      error_msg +:+ ", Error: "
      +:+ match message err with Some m => m | None => "None" end
  | None => error_msg
  end.

Section Operations.
Context {W : Type}.
Variable self : WorkspaceClient W.

(** The [for format_type in [SOURCE, HTML, JUPYTER]] loop; the argument
    [exported_content] is the variable's value on entry to an
    iteration, which a raising attempt leaves as it is. *)
Fixpoint export_formats (workspace_path : string)
    (formats : list ExportFormat)
    (exported_content : option ExportResponse)
  : @M W (option ExportResponse) :=
  match formats with
  | [] => ret exported_content
  | format_type :: formats' =>
      step <- try_catch
                (r <- workspace_export self workspace_path format_type ;;
                 if has_content r then ret (Break r) else ret (Continue r))
                (fun e => ret (Continue exported_content)) ;;
      match step with
      | Break r => ret r
      | Continue r => export_formats workspace_path formats' r
      end
  end.

(** The loop of [_download_via_rest_api]; [Some b] is [return b]. *)
Fixpoint rest_formats (url token workspace_path : string)
    (formats : list string) : @M W (option (list byte)) :=
  match formats with
  | [] => ret None
  | format_type :: formats' =>
      returned <- try_catch
        (response <- requests_get self url token workspace_path format_type ;;
         if (status_code response =? 200)%Z then
           match json response with
           | JsonRaises e => raise e
           | JsonWithout => ret None
           | JsonContentStr s =>
               file_content <- lift (b64decode (CStr s)) ;;
               ret (Some file_content)
           | JsonContentOther => raise not_base64_input
           end
         else ret None)
        (fun e => ret None) ;;
      match returned with
      | Some file_content => ret (Some file_content)
      | None => rest_formats url token workspace_path formats'
      end
  end.

Definition _download_via_rest_api (workspace_path : string)
  : @M W (option (list byte)) :=
  try_catch
    (let host := config_host self in
     let token := config_token self in
     let url := host +:+ "/api/2.0/workspace/export" in
     rest_formats url token workspace_path ["SOURCE"; "AUTO"]%string)
    (fun e => ret None).

Definition _download_file_direct (workspace_path : string)
  : @M W (option (list byte)) :=
  try_catch
    (returned <- try_catch
       (response <- workspace_download self workspace_path ;;
        match response with
        | DlNone => ret None
        | DlBytes [] => ret None
        | DlBytes b => ret (Some b)
        | DlStream => raise no_len
        end)
       (fun e =>
          match exn_type e with
          | AttributeError => ret None
          | _ => ret None
          end) ;;
     match returned with
     | Some response => ret (Some response)
     | None => _download_via_rest_api workspace_path
     end)
    (fun e => ret None).

(** Lines 176 to 201: the first attempt for a PDF path, then the loop
    when the variable is still falsy. *)
Definition export_attempts (workspace_path : string)
  : @M W (option ExportResponse) :=
  exported_content <-
    (if is_pdf_path workspace_path then
       try_catch (workspace_export self workspace_path SOURCE)
                 (fun e => ret None)
     else ret None) ;;
  if negb (truthy exported_content) then
    export_formats workspace_path [SOURCE; HTML; JUPYTER] exported_content
  else ret exported_content.

Definition export_workspace_file (workspace_path : string)
  : @M W (option (list byte)) :=
  try_catch
    (exported_content <- export_attempts workspace_path ;;
     match content_if_any exported_content with
     | Some c =>
         file_content <- lift (decode_content c) ;;
         ret (Some file_content)
     | None => _download_file_direct workspace_path
     end)
    (fun e => _download_file_direct workspace_path).

Definition list_workspace_files (dir_path : string)
  : @M W (list FileEntry) :=
  try_catch
    (fun w =>
       let '((objects, failure), w') := workspace_list self dir_path w in
       let files := append_entries objects [] in
       match failure with
       | None => (Ok files, w')
       | Some e => (Raise e, w')
       end)
    (fun e => ret []).

(** Lines 350 to 359: [inr] is the warehouse the query will run on,
    [inl] the dict returned early. *)
Definition resolve_warehouse (warehouse_id : option string)
  : @M W (sql_result + option string) :=
  if negb (str_truthy warehouse_id) then
    warehouses <- warehouses_list self ;;
    match warehouses with
    | [] => ret (inl (SqlFailure "No SQL warehouses available"))
    | first :: _ => ret (inr (id first))
    end
  else ret (inr warehouse_id).

(** Lines 361 to 424, once the warehouse is known. *)
Definition run_statement (sql_query : string) (warehouse_id : option string)
  : @M W sql_result :=
  statement <- execute_statement self warehouse_id sql_query "30s" ;;
  match status statement with
  | None => raise (none_has_no "state")
  | Some st =>
      if is_succeeded (state st) then
        let result_data := extract_rows (result statement) in
        ret (SqlSuccess result_data (statement_id statement) warehouse_id)
      else
        ret (SqlFailureOf (failure_message st) (statement_id statement))
  end.

Definition execute_sql_query (sql_query : string)
    (warehouse_id : option string) : @M W sql_result :=
  try_catch
    (resolved <- resolve_warehouse warehouse_id ;;
     match resolved with
     | inl early => ret early
     | inr warehouse_id => run_statement sql_query warehouse_id
     end)
    (fun e => ret (SqlFailure (exn_str e))).

End Operations.

End DatabricksClient.

(** ** [src/backend/main.py]: the chat route *)

Module Backend.

Record ChatMessage := {
  question : string;
  pdf_path : string;
  msg_conversation_id : option string
}.

Record ChatResponse := {
  success : bool;
  answer : option string;
  conversation_id : option string;
  metadata : option (gmap string string);
  error : option string
}.

(** The dict the AI engine returns: [result['success']] needs the key,
    the other fields are read with [result.get]. *)
Record engine_result := {
  r_success : option bool;
  r_answer : option string;
  r_metadata : option (gmap string string);
  r_error : option string
}.

(** [fastapi.HTTPException(status_code, detail)]; its [str] is
    ["{status_code}: {detail}"]. *)
Definition http_exception (status_code : N) (detail : string) : exn :=
  mk_exn HTTPException (decimal status_code +:+ ": " +:+ detail).

Definition key_error (key : string) : exn :=
  mk_exn KeyError ("'" +:+ key +:+ "'").

(** The module globals [ai_engine] and [pdf_manager] and the collaborators
    whose code is outside this development: the [PDFManager] constructor
    and its [get_pdf_content], [uuid.uuid4] and the engine's
    [query_pdf_with_databricks_ai]. *)
Record Collaborators (W : Type) := {
  AIEngine : Type;
  PDFManager : Type;
  ai_engine : W -> option AIEngine;
  pdf_manager : W -> option PDFManager;
  set_pdf_manager : PDFManager -> W -> W;
  new_PDFManager : @M W PDFManager;
  get_pdf_content : PDFManager -> string -> @M W (option (list byte));
  uuid4 : @M W string;
  query_pdf_with_databricks_ai :
    AIEngine -> list byte -> string -> string -> @M W engine_result
}.
Arguments AIEngine {W}.
Arguments PDFManager {W}.
Arguments ai_engine {W}.
Arguments pdf_manager {W}.
Arguments set_pdf_manager {W}.
Arguments new_PDFManager {W}.
Arguments get_pdf_content {W}.
Arguments uuid4 {W}.
Arguments query_pdf_with_databricks_ai {W}.

Section Route.
Context {W : Type}.
Variable app : Collaborators W.

(** Read a global that a method is about to be called on. *)
Definition global {A} (read : W -> option A) (method : string) : @M W A :=
  fun w =>
    match read w with
    | Some a => (Ok a, w)
    | None => (Raise (DatabricksClient.none_has_no method), w)
    end.

(** The body of the [try] in [query_pdf]. *)
Definition query_pdf_body (message : ChatMessage) : @M W ChatResponse :=
  _ <- (fun w =>
          match ai_engine app w with
          | Some _ => (Ok tt, w)
          | None =>
              (Raise (http_exception 400 "AI engine not configured"), w)
          end) ;;
  _ <- (fun w =>
          match pdf_manager app w with
          | Some _ => (Ok tt, w)
          | None =>
              match new_PDFManager app w with
              | (Ok m, w') => (Ok tt, set_pdf_manager app m w')
              | (Raise e, w') => (Raise e, w')
              end
          end) ;;
  manager <- global (pdf_manager app) "get_pdf_content" ;;
  pdf_content <- get_pdf_content app manager (pdf_path message) ;;
  match pdf_content with
  | None | Some [] => raise (http_exception 404 "PDF content not found")
  | Some file_content =>
      conv <- (match msg_conversation_id message with
               | Some c => if String.eqb c "" then uuid4 app else ret c
               | None => uuid4 app
               end) ;;
      engine <- global (ai_engine app) "query_pdf_with_databricks_ai" ;;
      result <- query_pdf_with_databricks_ai app engine file_content
                  (question message) conv ;;
      match r_success result with
      | None => raise (key_error "success")
      | Some ok =>
          ret {| success := ok;
                 answer := r_answer result;
                 conversation_id := Some conv;
                 metadata := r_metadata result;
                 error := r_error result |}
      end
  end.

Definition query_pdf (message : ChatMessage) : @M W ChatResponse :=
  try_catch (query_pdf_body message)
    (fun e =>
       ret {| success := false;
              answer := None;
              conversation_id := None;
              metadata := None;
              error := Some (exn_str e) |}).

End Route.

End Backend.

(** ** Checking a property of bytes by enumeration *)

Definition below (k : nat) : list N := map N.of_nat (seq 0 k).

Definition sextet0 (a : N) : N := N.shiftr a 2.
Definition sextet1 (a b : N) : N :=
  N.lor (N.shiftl (N.land a 3) 4) (N.shiftr b 4).
Definition sextet2 (b c : N) : N :=
  N.lor (N.shiftl (N.land b 15) 2) (N.shiftr c 6).
Definition sextet3 (c : N) : N := N.land c 63.

(** What the decoder rebuilds from two neighbouring sextets of a quad. *)
Definition quad_ok (a b : N) : bool :=
  (sextet0 a <? 64) && (sextet1 a b <? 64) && (sextet2 a b <? 64)
  && (sextet3 a <? 64)
  && (N.lor (N.shiftl (sextet0 a) 2) (N.shiftr (sextet1 a b) 4) mod 256 =? a)
  && (N.land (sextet1 a b) 15 =? N.shiftr b 4)
  && (N.lor (N.shiftl (N.shiftr a 4) 4) (N.shiftr (sextet2 a b) 2) mod 256 =? a)
  && (N.land (sextet2 a b) 3 =? N.shiftr b 6)
  && (N.lor (N.shiftl (N.shiftr a 6) 6) (sextet3 a) mod 256 =? a).

Definition alphabet_ok (n : N) : bool :=
  match Base64.a2b (Base64.b2a n) with
  | Some m => (m =? n) && negb (Byte.eqb (Base64.b2a n) Base64.BASE64_PAD)
  | None => false
  end.

(** ** Outcomes that count as failure of a fetch path *)

Definition never_raises {W A : Type} (m : @M W A) : Prop :=
  forall w, exists a w', m w = (Ok a, w').

Module Fetch.
Import DatabricksClient.

(** An export attempt without content: it raised, returned [None], or
    returned a response whose content is [None] or empty. *)
Definition export_empty (o : res (option ExportResponse)) : bool :=
  match o with
  | Ok r => negb (has_content r)
  | Raise _ => true
  end.

(** The download capability gave nothing usable: it raised, returned a
    falsy value, or returned an object whose length cannot be taken. *)
Definition download_fails (o : res download_value) : bool :=
  match o with
  | Ok (DlBytes (_ :: _)) => false
  | _ => true
  end.

(** A REST attempt gave no bytes: the request raised, the status is not
    200, or the body has no decodable [content]. *)
Definition rest_fails (o : res http_response) : bool :=
  match o with
  | Raise _ => true
  | Ok response =>
      if (status_code response =? 200)%Z then
        match json response with
        | JsonContentStr s =>
            match b64decode (CStr s) with
            | Ok _ => false
            | Raise _ => true
            end
        | _ => true
        end
      else true
  end.

End Fetch.

(** ** Recording the export attempts *)

Module Trace.
Import DatabricksClient.

(** An attempt: the format asked for and whether the answer had content. *)
Definition attempt : Type := ExportFormat * bool.

Definition answered (o : res (option ExportResponse)) : bool :=
  match o with
  | Ok r => has_content r
  | Raise _ => false
  end.

(** The same client, with every [workspace.export] call appended to a log
    kept beside the world. *)
Definition traced {W : Type} (self : WorkspaceClient W)
  : WorkspaceClient (W * list attempt) :=
  {| config_host := config_host self;
     config_token := config_token self;
     workspace_export p f := fun '(w, log) =>
       let '(o, w1) := workspace_export self p f w in
       (o, (w1, log ++ [(f, answered o)]));
     workspace_download p := fun '(w, log) =>
       let '(o, w1) := workspace_download self p w in (o, (w1, log));
     requests_get url token p f := fun '(w, log) =>
       let '(o, w1) := requests_get self url token p f w in (o, (w1, log));
     workspace_list p := fun '(w, log) =>
       let '(o, w1) := workspace_list self p w in (o, (w1, log));
     warehouses_list := fun '(w, log) =>
       let '(o, w1) := warehouses_list self w in (o, (w1, log));
     execute_statement wh q t := fun '(w, log) =>
       let '(o, w1) := execute_statement self wh q t w in (o, (w1, log)) |}.

(** The log follows the list of formats in order and ends right after the
    first attempt that had content, or when the list is exhausted. *)
Fixpoint stops_at_first_content (formats : list ExportFormat)
    (log : list attempt) : Prop :=
  match formats, log with
  | [], [] => True
  | f :: formats', (g, answered) :: log' =>
      f = g /\ if answered then log' = []
               else stops_at_first_content formats' log'
  | _, _ => False
  end.

End Trace.

(** ** Concrete remotes *)

Module Examples.
Import DatabricksClient.

Definition unreachable_error : exn :=
  mk_exn RemoteError "workspace unreachable".

(** A remote without state that answers by fixed tables. *)
Definition scripted
    (export : ExportFormat -> res (option ExportResponse))
    (download : res download_value)
    (rest : string -> res http_response)
    (listing : list ObjectInfo * option exn)
    (warehouses : res (list EndpointInfo))
    (statement : option string -> res StatementResponse)
  : WorkspaceClient unit :=
  {| config_host := "https://example.cloud.databricks.com";
     config_token := "token";
     workspace_export _ f := lift (export f);
     workspace_download _ := lift download;
     requests_get _ _ _ f := lift (rest f);
     workspace_list _ := fun w => (listing, w);
     warehouses_list := lift warehouses;
     execute_statement wh _ _ := lift (statement wh) |}.

(** Every call raises. *)
Definition unreachable : WorkspaceClient unit :=
  scripted (fun _ => Raise unreachable_error)
           (Raise unreachable_error)
           (fun _ => Raise unreachable_error)
           ([], Some unreachable_error)
           (Raise unreachable_error)
           (fun _ => Raise unreachable_error).

Definition hello_html : content := CStr (ascii_text (bytes_of_string "aGVsbG8=")).

(** The source export of a file answers with a response whose content is
    [None]; the HTML export would answer with content. *)
Definition source_without_content : WorkspaceClient unit :=
  scripted (fun f =>
              match f with
              | SOURCE => Ok (Some {| content_of := None |})
              | HTML => Ok (Some {| content_of := Some hello_html |})
              | JUPYTER => Raise unreachable_error
              end)
           (Raise unreachable_error)
           (fun _ => Raise unreachable_error)
           ([], None)
           (Ok [])
           (fun _ => Raise unreachable_error).

Definition report_pdf : string := "/Shared/report.PDF".

(** A lone high surrogate, as the JSON escape [\ud83d] decodes to. *)
Definition lone_surrogate : pystr := [0xD83D].

Definition pdf_header : list byte := bytes_of_string "%PDF-1.4".

End Examples.

(** ** Concrete warehouses and statements *)

Module SqlExamples.
Import DatabricksClient.



Definition succeeded (r : option ResultData) : StatementResponse :=
  {| status := Some {| state := Some SUCCEEDED; error := None |};
     result := r;
     statement_id := Some "01ef-statement"%string |}.

Definition warehouses : list EndpointInfo :=
  [ {| id := Some "wh-first"%string |}; {| id := Some "wh-second"%string |} ].

(** A workspace with two warehouses whose statements succeed with the
    given result. *)
Definition warehouse_client (r : option ResultData) : WorkspaceClient unit :=
  Examples.scripted (fun _ => Raise Examples.unreachable_error)
                    (Raise Examples.unreachable_error)
                    (fun _ => Raise Examples.unreachable_error)
                    ([], None)
                    (Ok warehouses)
                    (fun _ => Ok (succeeded r)).

(** A workspace without any warehouse. *)
Definition no_warehouse : WorkspaceClient unit :=
  Examples.scripted (fun _ => Raise Examples.unreachable_error)
                    (Raise Examples.unreachable_error)
                    (fun _ => Raise Examples.unreachable_error)
                    ([], None)
                    (Ok [])
                    (fun _ => Raise Examples.unreachable_error).

Definition notebook : ObjectInfo :=
  {| obj_path := "/Shared/etl";
     obj_object_type := Some {| value := "NOTEBOOK" |};
     obj_language := Some {| value := "PYTHON" |} |}.

Definition folder : ObjectInfo :=
  {| obj_path := "/Shared/raw";
     obj_object_type := None;
     obj_language := None |}.

(** A listing that yields one item and then fails. *)
Definition listing_breaks : WorkspaceClient unit :=
  Examples.scripted (fun _ => Raise Examples.unreachable_error)
                    (Raise Examples.unreachable_error)
                    (fun _ => Raise Examples.unreachable_error)
                    ([notebook], Some Examples.unreachable_error)
                    (Ok [])
                    (fun _ => Raise Examples.unreachable_error).

(** A directory with two entries, and an empty one. *)
Definition listing_of (objects : list ObjectInfo) : WorkspaceClient unit :=
  Examples.scripted (fun _ => Raise Examples.unreachable_error)
                    (Raise Examples.unreachable_error)
                    (fun _ => Raise Examples.unreachable_error)
                    (objects, None)
                    (Ok [])
                    (fun _ => Raise Examples.unreachable_error).

End SqlExamples.

(** ** A concrete chat backend *)

Module BackendExamples.
Import Backend.

(** An application whose engine is configured and whose manager exists;
    the document fetch and the engine answer as given. *)
Definition app_with
    (fetched : res (option (list byte)))
    (answered : res engine_result) : Collaborators unit :=
  {| AIEngine := unit;
     PDFManager := unit;
     ai_engine := fun _ => Some tt;
     pdf_manager := fun _ => Some tt;
     set_pdf_manager := fun _ w => w;
     new_PDFManager := ret tt;
     get_pdf_content := fun _ _ => lift fetched;
     uuid4 := ret "3f2b8c1e-0000-4000-8000-000000000001"%string;
     query_pdf_with_databricks_ai := fun _ _ _ _ => lift answered |}.

Definition what_is_this : ChatMessage :=
  {| question := "What is this?";
     pdf_path := "/Shared/report.pdf";
     msg_conversation_id := None |}.

Definition engine_down : exn := mk_exn RemoteError "model endpoint timed out".

End BackendExamples.

(** ** Recording every call of the fetch paths *)

Module Calls.
Import DatabricksClient.

Inductive call :=
  | ExportCall (f : ExportFormat)
  | DownloadCall
  | RestCall (format : string).

(** The same client, with the export, download and REST calls appended to
    a log kept beside the world. *)
Definition recorded {W : Type} (self : WorkspaceClient W)
  : WorkspaceClient (W * list call) :=
  {| config_host := config_host self;
     config_token := config_token self;
     workspace_export p f := fun '(w, log) =>
       let '(o, w1) := workspace_export self p f w in
       (o, (w1, log ++ [ExportCall f]));
     workspace_download p := fun '(w, log) =>
       let '(o, w1) := workspace_download self p w in
       (o, (w1, log ++ [DownloadCall]));
     requests_get url token p f := fun '(w, log) =>
       let '(o, w1) := requests_get self url token p f w in
       (o, (w1, log ++ [RestCall f]));
     workspace_list p := fun '(w, log) =>
       let '(o, w1) := workspace_list self p w in (o, (w1, log));
     warehouses_list := fun '(w, log) =>
       let '(o, w1) := warehouses_list self w in (o, (w1, log));
     execute_statement wh q t := fun '(w, log) =>
       let '(o, w1) := execute_statement self wh q t w in (o, (w1, log)) |}.

(** The calls of [_download_via_rest_api]: source first, then auto. *)
Definition rest_calls (l : list call) : Prop :=
  l = [RestCall "SOURCE"] \/ l = [RestCall "SOURCE"; RestCall "AUTO"].

(** The calls of [_download_file_direct]: the download, then the REST
    calls when the download gave nothing. *)
Definition direct_calls (l : list call) : Prop :=
  l = [DownloadCall] \/ exists r, l = DownloadCall :: r /\ rest_calls r.

(** What a REST answer decodes to, if anything. *)
Definition rest_bytes (o : res http_response) : option (list byte) :=
  match o with
  | Raise _ => None
  | Ok response =>
      if (status_code response =? 200)%Z then
        match json response with
        | JsonContentStr s =>
            match b64decode (CStr s) with
            | Ok b => Some b
            | Raise _ => None
            end
        | _ => None
        end
      else None
  end.

(** The bytes a download answer is returned for, if any. *)
Definition download_bytes (o : res download_value) : option (list byte) :=
  match o with
  | Ok (DlBytes (b :: l)) => Some (b :: l)
  | _ => None
  end.

End Calls.

(** ** [src/src/databricks_client.py]: the remaining methods *)

Module DatabricksClientMore.
Import DatabricksClient.

(** [workspace.ImportFormat]. *)
Inductive ImportFormat :=
  | IMPORT_AUTO | IMPORT_DBC | IMPORT_HTML | IMPORT_JUPYTER
  | IMPORT_RAW | IMPORT_R_MARKDOWN | IMPORT_SOURCE.

Record User := { user_name : option string }.

Record ClusterDetails := {
  cd_cluster_id : option string;
  cd_cluster_name : option string;
  cd_state : option enum_member;
  cd_node_type_id : option string
}.

(** The capabilities of [self.workspace_client] the methods below use.
    The cluster listing yields its items and then possibly fails. *)
Record MoreCapabilities (W : Type) := {
  workspace_upload :
    string -> pystr -> ImportFormat -> bool -> @M W unit;
  current_user_me : @M W User;
  clusters_list : W -> (list ClusterDetails * option exn) * W
}.
Arguments workspace_upload {W}.
Arguments current_user_me {W}.
Arguments clusters_list {W}.

(** [{success: True, path, message}] or [{success: False, error}]. *)
Inductive upload_result :=
  | Uploaded (path message : string)
  | UploadFailed (error : string).

(** [{success: True, user, workspace_url}] or [{success: False, error}]. *)
Inductive connection_result :=
  | Connected (user : option string) (workspace_url : string)
  | ConnectionFailed (error : string).

(** An entry of [get_clusters]. *)
Record ClusterEntry := {
  cluster_id : option string;
  cluster_name : option string;
  state : string;
  node_type_id : option string
}.

Definition cluster_entry (cluster : ClusterDetails) : ClusterEntry :=
  {| cluster_id := cd_cluster_id cluster;
     cluster_name := cd_cluster_name cluster;
     state := match cd_state cluster with
              | Some s => value s
              | None => "unknown"
              end;
     node_type_id := cd_node_type_id cluster |}.

(** The [for cluster in clusters] loop. *)
Fixpoint append_clusters (clusters : list ClusterDetails)
    (cluster_list : list ClusterEntry) : list ClusterEntry :=
  match clusters with
  | [] => cluster_list
  | cluster :: clusters' =>
      append_clusters clusters' (cluster_list ++ [cluster_entry cluster])
  end.

Section Methods.
Context {W : Type}.
Variable host : string.
Variable client : MoreCapabilities W.

Definition test_connection : @M W connection_result :=
  try_catch
    (current_user <- current_user_me client ;;
     ret (Connected (user_name current_user) host))
    (fun e => ret (ConnectionFailed (exn_str e))).

Definition upload_file_to_workspace (file_content : list byte)
    (workspace_path : string) (overwrite : bool) : @M W upload_result :=
  try_catch
    (let encoded_content := ascii_text (b64encode file_content) in
     _ <- workspace_upload client workspace_path encoded_content
            IMPORT_AUTO overwrite ;;
     ret (Uploaded workspace_path
            ("File uploaded successfully to " +:+ workspace_path)))
    (fun e => ret (UploadFailed (exn_str e))).

Definition create_notebook_from_template (notebook_path : string)
    (template_content : pystr) (overwrite : bool) : @M W upload_result :=
  try_catch
    (encoded <- lift (encode_utf8 template_content) ;;
     _ <- workspace_upload client notebook_path
            (ascii_text (b64encode encoded)) IMPORT_AUTO overwrite ;;
     ret (Uploaded notebook_path
            ("Notebook created successfully at " +:+ notebook_path)))
    (fun e => ret (UploadFailed (exn_str e))).

Definition get_clusters : @M W (list ClusterEntry) :=
  try_catch
    (fun w =>
       let '((clusters, failure), w') := clusters_list client w in
       let cluster_list := append_clusters clusters [] in
       match failure with
       | None => (Ok cluster_list, w')
       | Some e => (Raise e, w')
       end)
    (fun e => ret []).

End Methods.

(** *** The constructor *)

(** What the constructor reads and builds: the environment, and the SDK's
    [Config] and [WorkspaceClient], which may raise. *)
Record Construction (W : Type) := {
  Handle : Type;
  getenv : string -> W -> option string;
  new_workspace_client : string -> string -> @M W Handle
}.
Arguments Handle {W}.
Arguments getenv {W}.
Arguments new_workspace_client {W}.

Record Instance (H : Type) := {
  self_host : string;
  self_token : string;
  workspace_client : H;
  headers : gmap string string
}.
Arguments self_host {H}.
Arguments self_token {H}.
Arguments workspace_client {H}.
Arguments headers {H}.

(** [a or b] on optional text: [a] when it is truthy, otherwise [b]. *)
Definition or_else (a b : option string) : option string :=
  if str_truthy a then a else b.

Definition missing_credentials : exn :=
  mk_exn ValueError "Databricks host and token must be provided".

Definition __init__ {W : Type} (sdk : Construction W)
    (host token : option string) : @M W (Instance (Handle sdk)) :=
  fun w =>
    let self_host := or_else host (getenv sdk "DATABRICKS_HOST" w) in
    let self_token := or_else token (getenv sdk "DATABRICKS_TOKEN" w) in
    match self_host, self_token with
    | Some h, Some t =>
        if negb (str_truthy self_host) || negb (str_truthy self_token)
        then (Raise missing_credentials, w)
        else
          match new_workspace_client sdk h t w with
          | (Ok wc, w1) =>
              (Ok {| self_host := h;
                     self_token := t;
                     workspace_client := wc;
                     headers :=
                       <["Content-Type"%string := "application/json"%string]>
                         (<["Authorization"%string := "Bearer " +:+ t]> ∅) |},
               w1)
          | (Raise e, w1) => (Raise e, w1)
          end
    | _, _ => (Raise missing_credentials, w)
    end.

End DatabricksClientMore.

(** ** Text outside the base64 alphabet *)

(** An ASCII code point that is not a character of the base64 alphabet
    (the pad [=] is such a code point). *)
Definition outside_alphabet (cp : N) : bool :=
  (cp <? 128)
  && match Base64.a2b (byte_of_N cp) with
     | None => true
     | Some _ => false
     end.

Module MoreExamples.
Import DatabricksClient DatabricksClientMore.

(** An HTML comment: no character of it is in the base64 alphabet. *)
Definition html_comment : pystr := ascii_text (bytes_of_string "<!-- -->").

(** A workspace that keeps the text last uploaded under each path and
    answers a source export with it. *)
Definition store : Type := gmap string pystr.

Definition store_upload : MoreCapabilities store :=
  {| workspace_upload p text _ overwrite := fun w =>
       match w !! p with
       | Some _ =>
           if overwrite then (Ok tt, <[p := text]> w)
           else (Raise (mk_exn RemoteError "RESOURCE_ALREADY_EXISTS"), w)
       | None => (Ok tt, <[p := text]> w)
       end;
     current_user_me := ret {| user_name := Some "someone@example.com"%string |};
     clusters_list := fun w => (([], None), w) |}.

Definition store_client : WorkspaceClient store :=
  {| config_host := "https://example.cloud.databricks.com";
     config_token := "token";
     workspace_export p f := fun w =>
       match f, w !! p with
       | SOURCE, Some text =>
           (Ok (Some {| content_of := Some (CStr text) |}), w)
       | _, _ => (Raise (mk_exn RemoteError "RESOURCE_DOES_NOT_EXIST"), w)
       end;
     workspace_download _ := raise Examples.unreachable_error;
     requests_get _ _ _ _ := raise Examples.unreachable_error;
     workspace_list _ := fun w => (([], None), w);
     warehouses_list := ret [];
     execute_statement _ _ _ := raise Examples.unreachable_error |}.

(** The REST endpoint answers the source format with status 404 and the
    auto format with the base64 text of a PDF header. *)
Definition rest_only : WorkspaceClient unit :=
  Examples.scripted
    (fun _ => Raise Examples.unreachable_error)
    (Ok DlStream)
    (fun f =>
       if String.eqb f "AUTO"
       then Ok {| status_code := 200;
                  json := JsonContentStr
                            (ascii_text (b64encode Examples.pdf_header)) |}
       else Ok {| status_code := 404; json := JsonWithout |})
    ([], None) (Ok []) (fun _ => Raise Examples.unreachable_error).

Definition running : ClusterDetails :=
  {| cd_cluster_id := Some "0101-abc"%string;
     cd_cluster_name := Some "shared"%string;
     cd_state := Some {| value := "RUNNING" |};
     cd_node_type_id := Some "i3.xlarge"%string |}.

Definition clusters_of (answer : list ClusterDetails * option exn)
  : MoreCapabilities unit :=
  {| workspace_upload _ _ _ _ := raise Examples.unreachable_error;
     current_user_me := raise Examples.unreachable_error;
     clusters_list := fun w => (answer, w) |}.

(** An environment with both variables set, and an SDK whose client
    construction succeeds. *)
Definition sdk_with_env : Construction unit :=
  {| Handle := unit;
     getenv name := fun _ =>
       if String.eqb name "DATABRICKS_HOST"
       then Some "https://env.cloud.databricks.com"%string
       else if String.eqb name "DATABRICKS_TOKEN"
            then Some "dapi-env"%string
            else None;
     new_workspace_client _ _ := ret tt |}.

End MoreExamples.

(** ** [src/backend/main.py]: the other routes *)

Module App.

(** What [DatabricksAPIIntegration.test_connection] returns: a dict whose
    keys may be missing. *)
Record connection_dict := {
  cd_success : option bool;
  cd_user : option string;
  cd_workspace_url : option string;
  cd_error : option string
}.

(** [AIConfig]. *)
Record AIConfig := {
  provider : string;
  model : string;
  cluster_id : option string;
  openai_api_key : option string
}.

(** The classes of the repository and of the libraries that the routes
    use and whose code is outside this development, over the world [E]
    they act on. *)
Record Classes (E : Type) := {
  API : Type;
  Client : Type;
  Manager : Type;
  Engine : Type;
  Clusters : Type;
  Workflow : Type;
  Pdf : Type;
  History : Type;
  UploadFile : Type;
  new_DatabricksAPIIntegration : string -> string -> @M E API;
  api_test_connection : API -> @M E connection_dict;
  api_client : API -> Client;
  get_cluster_info : API -> @M E Clusters;
  upload_pdf_workflow : API -> list byte -> string -> bool -> @M E Workflow;
  new_PDFManager : Client -> @M E Manager;
  list_available_pdfs : Manager -> @M E (list Pdf);
  new_DatabricksAIEngine : Client -> option string -> @M E Engine;
  get_history : Engine -> string -> @M E History;
  clear_conversation_context : Engine -> string -> @M E unit;
  setenv : string -> string -> @M E unit;
  now_isoformat : @M E string;
  filename : UploadFile -> option string;
  read : UploadFile -> @M E (list byte)
}.
Arguments API {E}.
Arguments Client {E}.
Arguments Manager {E}.
Arguments Engine {E}.
Arguments Clusters {E}.
Arguments Workflow {E}.
Arguments Pdf {E}.
Arguments History {E}.
Arguments UploadFile {E}.
Arguments new_DatabricksAPIIntegration {E}.
Arguments api_test_connection {E}.
Arguments api_client {E}.
Arguments get_cluster_info {E}.
Arguments upload_pdf_workflow {E}.
Arguments new_PDFManager {E}.
Arguments list_available_pdfs {E}.
Arguments new_DatabricksAIEngine {E}.
Arguments get_history {E}.
Arguments clear_conversation_context {E}.
Arguments setenv {E}.
Arguments now_isoformat {E}.
Arguments filename {E}.
Arguments read {E}.

Section Routes.
Context {E : Type}.
Variable cls : Classes E.

(** The module globals. *)
Record Globals := {
  databricks_api : option (API cls);
  pdf_manager : option (Manager cls);
  ai_engine : option (Engine cls)
}.

Definition World : Type := Globals * E.

(** A call that acts on the outside world only. *)
Definition outside {A : Type} (m : @M E A) : @M World A :=
  fun '(g, e) => let '(r, e1) := m e in (r, (g, e1)).

Definition read_globals : @M World Globals :=
  fun '(g, e) => (Ok g, (g, e)).

Definition set_databricks_api (api : API cls) : @M World unit :=
  fun '(g, e) =>
    (Ok tt, ({| databricks_api := Some api;
                pdf_manager := pdf_manager g;
                ai_engine := ai_engine g |}, e)).

Definition set_pdf_manager (m : Manager cls) : @M World unit :=
  fun '(g, e) =>
    (Ok tt, ({| databricks_api := databricks_api g;
                pdf_manager := Some m;
                ai_engine := ai_engine g |}, e)).

Definition set_ai_engine (en : Engine cls) : @M World unit :=
  fun '(g, e) =>
    (Ok tt, ({| databricks_api := databricks_api g;
                pdf_manager := pdf_manager g;
                ai_engine := Some en |}, e)).

(** [d[key]] on a dict that may lack the key. *)
Definition item {A : Type} (key : string) (v : option A) : @M World A :=
  match v with
  | Some a => ret a
  | None => raise (Backend.key_error key)
  end.

(** [{success: True, message, user, workspace_url}] or
    [{success: False, error}]. *)
Inductive connect_response :=
  | ConnectOk (message user workspace_url : string)
  | ConnectFailed (error : string).

Definition get_databricks_connection : @M World (API cls) :=
  g <- read_globals ;;
  match databricks_api g with
  | Some api => ret api
  | None =>
      raise (Backend.http_exception 400
               "Databricks connection not established")
  end.

(** [{status, timestamp, databricks_connected}]. *)
Record health := {
  h_status : string;
  h_timestamp : string;
  h_databricks_connected : bool
}.

Definition health_check : @M World health :=
  timestamp <- outside (now_isoformat cls) ;;
  g <- read_globals ;;
  ret {| h_status := "healthy";
         h_timestamp := timestamp;
         h_databricks_connected :=
           match databricks_api g with Some _ => true | None => false end |}.

Definition connect_databricks (host token : string)
  : @M World connect_response :=
  try_catch
    (api <- outside (new_DatabricksAPIIntegration cls host token) ;;
     _ <- set_databricks_api api ;;
     connection_result <- outside (api_test_connection cls api) ;;
     ok <- item "success" (cd_success connection_result) ;;
     if ok : bool then
       manager <- outside (new_PDFManager cls (api_client cls api)) ;;
       _ <- set_pdf_manager manager ;;
       engine <- outside
                   (new_DatabricksAIEngine cls (api_client cls api) None) ;;
       _ <- set_ai_engine engine ;;
       user <- item "user" (cd_user connection_result) ;;
       url <- item "workspace_url" (cd_workspace_url connection_result) ;;
       ret (ConnectOk "Connected to Databricks successfully" user url)
     else
       error <- item "error" (cd_error connection_result) ;;
       ret (ConnectFailed error))
    (fun e => ret (ConnectFailed (exn_str e))).

(** [{success: True, provider, model, message}] or
    [{success: False, error}]. *)
Inductive configure_response :=
  | Configured (provider model message : string)
  | ConfigureFailed (error : string).

Definition configure_ai (config : AIConfig) (db : API cls)
  : @M World configure_response :=
  try_catch
    (if String.eqb (provider config) "databricks" then
       engine <- outside
                   (new_DatabricksAIEngine cls (api_client cls db)
                      (Some (model config))) ;;
       _ <- set_ai_engine engine ;;
       ret (Configured "databricks" (model config)
              "Databricks AI configured successfully")
     else if String.eqb (provider config) "openai" then
       match openai_api_key config with
       | None => ret (ConfigureFailed "OpenAI API key required")
       | Some key =>
           if String.eqb key "" then
             ret (ConfigureFailed "OpenAI API key required")
           else
             _ <- outside (setenv cls "OPENAI_API_KEY" key) ;;
             ret (Configured "openai" (model config)
                    "OpenAI configured successfully")
       end
     else
       ret (ConfigureFailed
              ("Unsupported AI provider: " +:+ provider config)))
    (fun e => ret (ConfigureFailed (exn_str e))).

Definition upload_pdf (file : UploadFile cls) (create_notebook : bool)
    (db : API cls) : @M World (Workflow cls) :=
  try_catch
    (name <- match filename cls file with
             | Some name => ret name
             | None => raise (DatabricksClient.none_has_no "lower")
             end ;;
     _ <- (if negb (endswith (lower name) ".pdf")
           then raise (Backend.http_exception 400
                         "Only PDF files are allowed")
           else ret tt) ;;
     file_content <- outside (read cls file) ;;
     outside (upload_pdf_workflow cls db file_content name create_notebook))
    (fun e => raise (Backend.http_exception 500 (exn_str e))).

(** [{success: True, pdfs, count}] or [{success: False, error}]. *)
Inductive list_response :=
  | Listed (pdfs : list (Pdf cls)) (count : nat)
  | ListFailed (error : string).

Definition list_pdfs (db : API cls) : @M World list_response :=
  try_catch
    (g <- read_globals ;;
     _ <- match pdf_manager g with
          | Some _ => ret tt
          | None =>
              manager <- outside (new_PDFManager cls (api_client cls db)) ;;
              set_pdf_manager manager
          end ;;
     g1 <- read_globals ;;
     manager <- match pdf_manager g1 with
                | Some m => ret m
                | None => raise (DatabricksClient.none_has_no
                                   "list_available_pdfs")
                end ;;
     pdfs <- outside (list_available_pdfs cls manager) ;;
     ret (Listed pdfs (length pdfs)))
    (fun e => ret (ListFailed (exn_str e))).

(** [{success: True, conversation_id, history}] or
    [{success: False, error}]. *)
Inductive history_response :=
  | HistoryOf (conversation_id : string) (history : History cls)
  | HistoryFailed (error : string).

Definition get_conversation_history (conversation_id : string)
  : @M World history_response :=
  try_catch
    (g <- read_globals ;;
     match ai_engine g with
     | None =>
         raise (Backend.http_exception 400 "AI engine not configured")
     | Some engine =>
         history <- outside (get_history cls engine conversation_id) ;;
         ret (HistoryOf conversation_id history)
     end)
    (fun e => ret (HistoryFailed (exn_str e))).

(** [{success: True, message}] or [{success: False, error}]. *)
Inductive clear_response :=
  | Cleared (message : string)
  | ClearFailed (error : string).

Definition clear_conversation_history (conversation_id : string)
  : @M World clear_response :=
  try_catch
    (g <- read_globals ;;
     match ai_engine g with
     | None =>
         raise (Backend.http_exception 400 "AI engine not configured")
     | Some engine =>
         _ <- outside
                (clear_conversation_context cls engine conversation_id) ;;
         ret (Cleared ("Conversation " +:+ conversation_id +:+ " cleared"))
     end)
    (fun e => ret (ClearFailed (exn_str e))).

End Routes.

Arguments databricks_api {E cls}.
Arguments pdf_manager {E cls}.
Arguments ai_engine {E cls}.

End App.

Module AppExamples.
Import App.

(** Handles are numbers; the world counts the objects built so far. The
    connection test answers as given. *)
Definition classes (test : res connection_dict) : Classes nat :=
  {| API := nat; Client := nat; Manager := nat; Engine := nat;
     Clusters := list string; Workflow := string; Pdf := string;
     History := list string; UploadFile := option string;
     new_DatabricksAPIIntegration _ _ := fun n => (Ok n, S n);
     api_test_connection _ := lift test;
     api_client api := api;
     get_cluster_info _ := ret [];
     upload_pdf_workflow _ _ name _ := ret name;
     new_PDFManager _ := fun n => (Ok n, S n);
     list_available_pdfs _ := ret ["/Shared/report.pdf"%string];
     new_DatabricksAIEngine _ _ := fun n => (Ok n, S n);
     get_history _ _ := ret [];
     clear_conversation_context _ _ := ret tt;
     setenv _ _ := ret tt;
     now_isoformat := ret "2024-01-01T00:00:00"%string;
     filename file := file;
     read _ := ret Examples.pdf_header |}.

Definition refused : connection_dict :=
  {| cd_success := Some false; cd_user := None; cd_workspace_url := None;
     cd_error := Some "Invalid access token"%string |}.

Definition accepted : connection_dict :=
  {| cd_success := Some true;
     cd_user := Some "someone@example.com"%string;
     cd_workspace_url := Some "https://example.cloud.databricks.com"%string;
     cd_error := None |}.

Definition globals_of (test : res connection_dict)
    (api manager engine : option nat) : Globals (classes test) :=
  @Build_Globals _ (classes test) api manager engine.

Definition nothing_yet (test : res connection_dict)
  : Globals (classes test) :=
  globals_of test None None None.

End AppExamples.

(** * Properties *)

(** ** Enumeration of bytes *)

Lemma below_spec (k : nat) (f : N -> bool) :
  forallb f (below k) = true -> forall n, n < N.of_nat k -> f n = true.
Proof.
  intros Hall n Hn.
  rewrite forallb_forall in Hall. apply Hall.
  unfold below. rewrite in_map_iff. exists (N.to_nat n). split.
  - apply N2Nat.id.
  - apply in_seq. lia.
Qed.

Lemma byte_bound (b : byte) : Byte.to_N b < 256.
Proof. pose proof (Byte.to_N_bounded b). lia. Qed.

Lemma byte_of_to_N (b : byte) : byte_of_N (Byte.to_N b) = b.
Proof.
  unfold byte_of_N. rewrite N.mod_small by apply byte_bound.
  now rewrite Byte.of_to_N.
Qed.

Lemma byte_of_N_mod (n : N) (b : byte) :
  n mod 256 = Byte.to_N b -> byte_of_N n = b.
Proof.
  intros H. unfold byte_of_N. rewrite H. now rewrite Byte.of_to_N.
Qed.

Lemma quad_ok_all (a b : byte) : quad_ok (Byte.to_N a) (Byte.to_N b) = true.
Proof.
  assert (H : forallb (fun x => forallb (quad_ok x) (below 256)) (below 256)
              = true) by (vm_compute; reflexivity).
  pose proof (below_spec 256 _ H (Byte.to_N a) (byte_bound a)) as Ha.
  exact (below_spec 256 _ Ha (Byte.to_N b) (byte_bound b)).
Qed.

Lemma alphabet_ok_all (n : N) : n < 64 -> alphabet_ok n = true.
Proof.
  apply (below_spec 64). vm_compute. reflexivity.
Qed.

(** ** Base64 round trip *)

Module Base64Facts.
Import Base64.

Lemma quad_facts (a b : byte) :
  let x := Byte.to_N a in
  let y := Byte.to_N b in
  sextet0 x < 64 /\ sextet1 x y < 64 /\ sextet2 x y < 64 /\ sextet3 x < 64
  /\ N.lor (N.shiftl (sextet0 x) 2) (N.shiftr (sextet1 x y) 4) mod 256 = x
  /\ N.land (sextet1 x y) 15 = N.shiftr y 4
  /\ N.lor (N.shiftl (N.shiftr x 4) 4) (N.shiftr (sextet2 x y) 2) mod 256 = x
  /\ N.land (sextet2 x y) 3 = N.shiftr y 6
  /\ N.lor (N.shiftl (N.shiftr x 6) 6) (sextet3 x) mod 256 = x.
Proof.
  intros x y. pose proof (quad_ok_all a b) as H. fold x y in H.
  unfold quad_ok in H.
  repeat (apply andb_prop in H; destruct H as [H ?]).
  repeat match goal with
         | E : (_ <? _) = true |- _ => apply N.ltb_lt in E
         | E : (_ =? _) = true |- _ => apply N.eqb_eq in E
         end.
  repeat split; assumption.
Qed.

Lemma a2b_b2a (n : N) : n < 64 -> a2b (b2a n) = Some n.
Proof.
  intros Hn. pose proof (alphabet_ok_all n Hn) as H. unfold alphabet_ok in H.
  destruct (a2b (b2a n)) as [m|]; [|discriminate].
  apply andb_prop in H. destruct H as [H _].
  apply N.eqb_eq in H. now subst.
Qed.

Lemma b2a_not_pad (n : N) : n < 64 -> Byte.eqb (b2a n) BASE64_PAD = false.
Proof.
  intros Hn. pose proof (alphabet_ok_all n Hn) as H. unfold alphabet_ok in H.
  destruct (a2b (b2a n)) as [m|]; [|discriminate].
  apply andb_prop in H. destruct H as [_ H].
  now apply negb_true_iff in H.
Qed.

(** One step of the decoder on an alphabet character. *)
Lemma a2b_loop_data (s : N) rest quad_pos leftchar pads produced :
  s < 64 ->
  a2b_loop (b2a s :: rest) quad_pos leftchar pads produced =
    if quad_pos =? 0 then a2b_loop rest 1 s 0 produced
    else if quad_pos =? 1 then
      emit (byte_of_N (N.lor (N.shiftl leftchar 2) (N.shiftr s 4)))
           (a2b_loop rest 2 (N.land s 15) 0 (produced + 1))
    else if quad_pos =? 2 then
      emit (byte_of_N (N.lor (N.shiftl leftchar 4) (N.shiftr s 2)))
           (a2b_loop rest 3 (N.land s 3) 0 (produced + 1))
    else
      emit (byte_of_N (N.lor (N.shiftl leftchar 6) s))
           (a2b_loop rest 0 0 0 (produced + 1)).
Proof.
  intros Hs. cbn [a2b_loop].
  rewrite (b2a_not_pad s Hs), (a2b_b2a s Hs). reflexivity.
Qed.

(** One step of the decoder on a pad. *)
Lemma a2b_loop_pad rest quad_pos leftchar pads produced :
  a2b_loop (BASE64_PAD :: rest) quad_pos leftchar pads produced =
    if 2 <=? quad_pos then
      if 4 <=? quad_pos + (pads + 1) then Ok []
      else a2b_loop rest quad_pos leftchar (pads + 1) produced
    else a2b_loop rest quad_pos leftchar pads produced.
Proof. reflexivity. Qed.

(** The first two characters of a quad give back its first byte. *)
Lemma a2b_loop_first (a b : byte) rest leftchar produced :
  a2b_loop (b2a (sextet0 (Byte.to_N a))
            :: b2a (sextet1 (Byte.to_N a) (Byte.to_N b)) :: rest)
           0 leftchar 0 produced =
  emit a (a2b_loop rest 2 (N.shiftr (Byte.to_N b) 4) 0 (produced + 1)).
Proof.
  destruct (quad_facts a b) as (H0 & H1 & _ & _ & Ha & Hl & _).
  rewrite (a2b_loop_data _ _ _ _ _ _ H0). cbn [N.eqb].
  rewrite (a2b_loop_data _ _ _ _ _ _ H1). cbn [N.eqb Pos.eqb].
  rewrite Hl. f_equal. apply byte_of_N_mod. exact Ha.
Qed.

(** The third character gives back the second byte. *)
Lemma a2b_loop_second (b c : byte) rest produced :
  a2b_loop (b2a (sextet2 (Byte.to_N b) (Byte.to_N c)) :: rest)
           2 (N.shiftr (Byte.to_N b) 4) 0 produced =
  emit b (a2b_loop rest 3 (N.shiftr (Byte.to_N c) 6) 0 (produced + 1)).
Proof.
  destruct (quad_facts b c) as (_ & _ & H2 & _ & _ & _ & Hb & Hl & _).
  rewrite (a2b_loop_data _ _ _ _ _ _ H2). cbn [N.eqb Pos.eqb].
  rewrite Hl. f_equal. apply byte_of_N_mod. exact Hb.
Qed.

(** The fourth character gives back the third byte and closes the quad. *)
Lemma a2b_loop_third (c : byte) rest produced :
  a2b_loop (b2a (sextet3 (Byte.to_N c)) :: rest)
           3 (N.shiftr (Byte.to_N c) 6) 0 produced =
  emit c (a2b_loop rest 0 0 0 (produced + 1)).
Proof.
  destruct (quad_facts c c) as (_ & _ & _ & H3 & _ & _ & _ & _ & Hc).
  rewrite (a2b_loop_data _ _ _ _ _ _ H3). cbn [N.eqb Pos.eqb].
  f_equal. apply byte_of_N_mod. exact Hc.
Qed.

Lemma sextet1_tail (a : N) : N.shiftl (N.land a 3) 4 = sextet1 a (Byte.to_N x00).
Proof. unfold sextet1. cbn [Byte.to_N]. now rewrite N.shiftr_0_l, N.lor_0_r. Qed.

Lemma sextet2_tail (b : N) : N.shiftl (N.land b 15) 2 = sextet2 b (Byte.to_N x00).
Proof. unfold sextet2. cbn [Byte.to_N]. now rewrite N.shiftr_0_l, N.lor_0_r. Qed.

Lemma a2b_b2a_upto (k : nat) :
  forall bin produced,
    (length bin < k)%nat ->
    a2b_loop (b2a_base64 bin) 0 0 0 produced = Ok bin.
Proof.
  induction k as [|k IH]; intros bin produced Hlen; [lia|].
  destruct bin as [|a [|b [|c rest]]].
  - reflexivity.
  - cbn [b2a_base64]. rewrite sextet1_tail.
    fold (sextet0 (Byte.to_N a)).
    rewrite a2b_loop_first. rewrite !a2b_loop_pad. reflexivity.
  - cbn [b2a_base64]. rewrite sextet2_tail.
    fold (sextet0 (Byte.to_N a)).
    fold (sextet1 (Byte.to_N a) (Byte.to_N b)).
    rewrite a2b_loop_first, a2b_loop_second, a2b_loop_pad. reflexivity.
  - cbn [b2a_base64].
    fold (sextet0 (Byte.to_N a)).
    fold (sextet1 (Byte.to_N a) (Byte.to_N b)).
    fold (sextet2 (Byte.to_N b) (Byte.to_N c)).
    fold (sextet3 (Byte.to_N c)).
    rewrite a2b_loop_first, a2b_loop_second, a2b_loop_third.
    rewrite IH by (cbn [length] in Hlen; lia). reflexivity.
Qed.

Lemma a2b_b2a_base64 (bin : list byte) :
  a2b_base64 (b2a_base64 bin) = Ok bin.
Proof. exact (a2b_b2a_upto (S (length bin)) bin 0 (Nat.lt_succ_diag_r _)). Qed.

Lemma b2a_is_ascii (n : N) : Byte.to_N (b2a n) < 128.
Proof.
  unfold b2a.
  destruct (Nat.lt_ge_cases (N.to_nat n) (length table_b2a_base64)) as [H|H].
  - assert (Hall : forallb (fun c => Byte.to_N c <? 128) table_b2a_base64
                   = true) by (vm_compute; reflexivity).
    rewrite forallb_forall in Hall.
    apply N.ltb_lt, Hall, nth_In, H.
  - rewrite nth_overflow by exact H. reflexivity.
Qed.

Lemma b2a_base64_is_ascii (bin : list byte) :
  Forall (fun c => Byte.to_N c < 128) (b2a_base64 bin).
Proof.
  assert (Hk : forall k bin, (length bin < k)%nat ->
               Forall (fun c => Byte.to_N c < 128) (b2a_base64 bin)).
  { clear bin. induction k as [|k IH]; intros bin Hlen; [lia|].
    destruct bin as [|a [|b [|c rest]]]; cbn [b2a_base64];
      repeat (apply List.Forall_cons;
              [first [apply b2a_is_ascii | reflexivity]|]);
      try apply List.Forall_nil.
    apply IH. cbn [length] in Hlen. lia. }
  exact (Hk (S (length bin)) bin (Nat.lt_succ_diag_r _)).
Qed.

End Base64Facts.

Lemma encode_ascii_text (b : list byte) :
  Forall (fun c => Byte.to_N c < 128) b -> encode_ascii (ascii_text b) = Ok b.
Proof.
  induction 1 as [|c b Hc _ IH]; [reflexivity|].
  cbn [ascii_text map encode_ascii]. fold (ascii_text b).
  apply N.ltb_lt in Hc. rewrite Hc, IH, byte_of_to_N. reflexivity.
Qed.

(** Decoding the text [upload_file_to_workspace] sends gives the bytes
    back. *)
Lemma b64decode_b64encode_text (B : list byte) :
  b64decode (CStr (ascii_text (b64encode B))) = Ok B.
Proof.
  unfold b64decode, b64encode.
  rewrite encode_ascii_text by apply Base64Facts.b2a_base64_is_ascii.
  apply Base64Facts.a2b_b2a_base64.
Qed.

Lemma b64decode_b64encode_bytes (B : list byte) :
  b64decode (CBytes (b64encode B)) = Ok B.
Proof. apply Base64Facts.a2b_b2a_base64. Qed.

(** ** The monad *)

Lemma ret_never_raises {W A : Type} (a : A) : never_raises (@ret W A a).
Proof. intros w. now exists a, w. Qed.

Lemma try_catch_never_raises {W A : Type} (m : @M W A) (h : exn -> @M W A) :
  (forall e, never_raises (h e)) -> never_raises (try_catch m h).
Proof.
  intros Hh w. unfold try_catch.
  destruct (m w) as [[a|e] w1].
  - now exists a, w1.
  - apply Hh.
Qed.

Lemma try_catch_none {W A : Type} (m : @M W (option A)) (w : W) :
  (forall a w1, m w <> (Ok (Some a), w1)) ->
  exists w1, try_catch m (fun _ => ret None) w = (Ok None, w1).
Proof.
  intros H. unfold try_catch, ret.
  destruct (m w) as [[[a|]|e] w1] eqn:E.
  - now destruct (H a w1).
  - now exists w1.
  - now exists w1.
Qed.

(** ** Export: the fetch never raises, and fails with [None] *)

Module ExportFacts.
Import DatabricksClient Fetch.

Section WithClient.
Context {W : Type}.
Variable self : WorkspaceClient W.

Lemma download_via_rest_api_never_raises (p : string) :
  never_raises (_download_via_rest_api self p).
Proof.
  apply try_catch_never_raises. intros e. apply ret_never_raises.
Qed.

Lemma download_file_direct_never_raises (p : string) :
  never_raises (_download_file_direct self p).
Proof.
  apply try_catch_never_raises. intros e. apply ret_never_raises.
Qed.

Lemma export_workspace_file_never_raises (p : string) :
  never_raises (export_workspace_file self p).
Proof.
  apply try_catch_never_raises. intros e.
  apply download_file_direct_never_raises.
Qed.

Section Exhausted.
Variable p : string.
Hypothesis exports_empty :
  forall f w, export_empty (fst (workspace_export self p f w)) = true.
Hypothesis download_failing :
  forall w, download_fails (fst (workspace_download self p w)) = true.
Hypothesis rest_failing :
  forall url token f w,
    rest_fails (fst (requests_get self url token p f w)) = true.

Lemma export_formats_empty formats :
  forall cur w,
    has_content cur = false ->
    exists r w1,
      export_formats self p formats cur w = (Ok r, w1)
      /\ has_content r = false.
Proof.
  induction formats as [|f formats IH]; intros cur w Hcur.
  - exists cur, w. now split.
  - cbn [export_formats]. unfold bind at 1. unfold try_catch, bind.
    pose proof (exports_empty f w) as Hf.
    destruct (workspace_export self p f w) as [[r|e] w1];
      cbn [fst export_empty] in Hf.
    + apply negb_true_iff in Hf. rewrite Hf. cbn [ret].
      now apply IH.
    + cbn [ret]. now apply IH.
Qed.

Lemma export_attempts_empty (w : W) :
  exists r w1,
    export_attempts self p w = (Ok r, w1) /\ has_content r = false.
Proof.
  unfold export_attempts, bind.
  destruct (is_pdf_path p).
  - unfold try_catch. pose proof (exports_empty SOURCE w) as Hf.
    destruct (workspace_export self p SOURCE w) as [[r|e] w1];
      cbn [fst export_empty] in Hf.
    + apply negb_true_iff in Hf.
      destruct r as [r|]; cbn [truthy negb].
      * exists (Some r), w1. now split.
      * now apply export_formats_empty.
    + cbn [ret truthy negb]. now apply export_formats_empty.
  - cbn [ret truthy negb]. now apply export_formats_empty.
Qed.

Lemma rest_formats_none url token formats :
  forall w, exists w1,
    rest_formats self url token p formats w = (Ok None, w1).
Proof.
  induction formats as [|f formats IH]; intros w.
  - now exists w.
  - cbn [rest_formats]. unfold bind at 1.
    destruct (try_catch_none
                (response <- requests_get self url token p f ;;
                 if (status_code response =? 200)%Z then
                   match json response with
                   | JsonRaises e => raise e
                   | JsonWithout => ret None
                   | JsonContentStr s =>
                       file_content <- lift (b64decode (CStr s)) ;;
                       ret (Some file_content)
                   | JsonContentOther => raise not_base64_input
                   end
                 else ret None) w) as [w1 E].
    + intros a w1. unfold bind.
      pose proof (rest_failing url token f w) as Hf.
      destruct (requests_get self url token p f w) as [[resp|e] w2];
        cbn [fst rest_fails] in Hf; [|discriminate].
      destruct (status_code resp =? 200)%Z; [|discriminate].
      destruct (json resp) as [e| |s|]; try discriminate.
      unfold lift. destruct (b64decode (CStr s)); discriminate.
    + rewrite E. apply IH.
Qed.

Lemma download_via_rest_api_none (w : W) :
  exists w1, _download_via_rest_api self p w = (Ok None, w1).
Proof.
  unfold _download_via_rest_api, try_catch.
  destruct (rest_formats_none
              (config_host self +:+ "/api/2.0/workspace/export")
              (config_token self) ["SOURCE"; "AUTO"]%string w)
    as [w1 E].
  rewrite E. now exists w1.
Qed.

Lemma download_file_direct_none (w : W) :
  exists w1, _download_file_direct self p w = (Ok None, w1).
Proof.
  unfold _download_file_direct, try_catch, bind.
  pose proof (download_failing w) as Hf.
  destruct (workspace_download self p w) as [[[| [|b l] |]|e] w2];
    cbn [fst download_fails] in Hf; try discriminate;
    unfold ret, raise, no_len; cbn [exn_type];
    try destruct (exn_type e).
  all: destruct (download_via_rest_api_none w2) as [w3 E];
    rewrite E; now exists w3.
Qed.

Lemma export_workspace_file_none (w : W) :
  exists w1, export_workspace_file self p w = (Ok None, w1).
Proof.
  unfold export_workspace_file, try_catch, bind.
  destruct (export_attempts_empty w) as (r & w1 & E & Hr).
  rewrite E. unfold has_content in Hr.
  destruct (content_if_any r); [discriminate|].
  destruct (download_file_direct_none w1) as [w2 E2].
  rewrite E2. now exists w2.
Qed.

End Exhausted.
End WithClient.
End ExportFacts.

(** ** Export: the order of the attempts *)

Module TraceFacts.
Import DatabricksClient Trace.

Section WithClient.
Context {W : Type}.
Variable self : WorkspaceClient W.
Variable p : string.

(** Recording changes neither the results nor the world. *)
Lemma export_formats_erase formats :
  forall cur w log,
    let '(r, w1) := export_formats self p formats cur w in
    exists log1,
      export_formats (traced self) p formats cur (w, log) = (r, (w1, log1)).
Proof.
  induction formats as [|f formats IH]; intros cur w log.
  - cbn. now exists log.
  - cbn [export_formats]. unfold bind, try_catch. cbn [traced workspace_export].
    destruct (workspace_export self p f w) as [[r|e] w1].
    + destruct (has_content r); cbn [ret].
      * eauto.
      * apply IH.
    + cbn [ret]. apply IH.
Qed.

Lemma export_attempts_erase (w : W) (log : list attempt) :
  let '(r, w1) := export_attempts self p w in
  exists log1, export_attempts (traced self) p (w, log) = (r, (w1, log1)).
Proof.
  unfold export_attempts, bind, try_catch.
  cbn [traced workspace_export].
  destruct (is_pdf_path p).
  - destruct (workspace_export self p SOURCE w) as [[[r|]|e] w1];
      cbn [ret truthy negb].
    + eauto.
    + apply export_formats_erase.
    + apply export_formats_erase.
  - cbn [ret truthy negb]. apply export_formats_erase.
Qed.

(** The loop tries the formats in order and stops at the first answer
    with content. *)
Lemma export_formats_log formats :
  forall cur w log,
  exists r w1 l,
    export_formats (traced self) p formats cur (w, log)
      = (Ok r, (w1, log ++ l))
    /\ stops_at_first_content formats l
    /\ (existsb snd l = true -> has_content r = true).
Proof.
  induction formats as [|f formats IH]; intros cur w log.
  - exists cur, w, []. rewrite app_nil_r. cbn. repeat split. discriminate.
  - cbn [export_formats]. unfold bind, try_catch.
    cbn [traced workspace_export].
    destruct (workspace_export self p f w) as [[r|e] w1]; cbn [answered].
    + destruct (has_content r) eqn:Hr; cbn [ret].
      * exists r, w1, [(f, true)]. cbn. repeat split. intros _. exact Hr.
      * destruct (IH r w1 (log ++ [(f, false)])) as (r' & w2 & l & E & Hl & Hc).
        exists r', w2, ((f, false) :: l).
        rewrite <- app_assoc in E. cbn. repeat split; assumption.
    + cbn [ret].
      destruct (IH cur w1 (log ++ [(f, false)])) as (r' & w2 & l & E & Hl & Hc).
      exists r', w2, ((f, false) :: l).
      rewrite <- app_assoc in E. cbn. repeat split; assumption.
Qed.

End WithClient.
End TraceFacts.

(** ** The transfer codec *)

Lemma encode_utf8_total (s : pystr) :
  existsb is_surrogate s = false -> exists out, encode_utf8 s = Ok out.
Proof.
  induction s as [|cp s IH]; intros Hs; [now exists []|].
  cbn [existsb] in Hs. apply orb_false_iff in Hs. destruct Hs as [Hcp Hs].
  destruct (IH Hs) as [out E].
  cbn [encode_utf8]. rewrite Hcp, E. eauto.
Qed.

Lemma encode_utf8_surrogate (s : pystr) :
  existsb is_surrogate s = true ->
  exists e, encode_utf8 s = Raise e /\ exn_type e = UnicodeEncodeError.
Proof.
  induction s as [|cp s IH]; intros Hs; [discriminate|].
  cbn [existsb] in Hs. cbn [encode_utf8].
  destruct (is_surrogate cp); [eauto|].
  destruct (IH Hs) as (e & E & He). rewrite E. eauto.
Qed.

Lemma encode_ascii_surrogate (s : pystr) :
  existsb is_surrogate s = true -> exists e, encode_ascii s = Raise e.
Proof.
  induction s as [|cp s IH]; intros Hs; [discriminate|].
  cbn [existsb] in Hs. cbn [encode_ascii].
  destruct (cp <? 128) eqn:Hcp; [|eauto].
  assert (Hn : is_surrogate cp = false).
  { unfold is_surrogate. apply N.ltb_lt in Hcp. apply andb_false_iff. left.
    apply N.leb_gt. lia. }
  rewrite Hn in Hs. destruct (IH Hs) as [e E]. rewrite E. eauto.
Qed.


(** The claim C2 as stated fails on a payload that starts with [JVBERi] but
    is not valid base64: the decoder raises and the handler hands back the
    payload, that is the base64 text itself. *)
Lemma C2_counterexample :
  let payload := bytes_of_string "JVBERi" in
  startswith payload DatabricksClient.JVBERi = true
  /\ b64decode (CBytes payload) = Raise Base64.incorrect_padding
  /\ DatabricksClient.decode_content (CBytes payload) = Ok payload.
Proof. vm_compute. repeat split. Qed.

(** C2 (amended). Base64 sniffing: a byte payload that starts with [JVBERi]
    is base64-decoded and, when the decoding succeeds, the decoded buffer is
    returned; when the decoding raises, the payload is returned unchanged.
    Every other byte payload is returned unchanged. In particular the base64
    text of a raw buffer, when it starts with [JVBERi], decodes to that
    buffer. *)
Theorem C2_base64_sniffing (payload : list byte) :
  (if startswith payload DatabricksClient.JVBERi then
     match b64decode (CBytes payload) with
     | Ok raw => DatabricksClient.decode_content (CBytes payload) = Ok raw
     | Raise _ => DatabricksClient.decode_content (CBytes payload) = Ok payload
     end
   else DatabricksClient.decode_content (CBytes payload) = Ok payload)
  /\ (forall raw,
        payload = b64encode raw ->
        startswith payload DatabricksClient.JVBERi = true ->
        DatabricksClient.decode_content (CBytes payload) = Ok raw).
Proof.
  split.
  - unfold DatabricksClient.decode_content, DatabricksClient.decode_try.
    destruct (startswith payload DatabricksClient.JVBERi); [|reflexivity].
    now destruct (b64decode (CBytes payload)).
  - intros raw -> Hprefix.
    unfold DatabricksClient.decode_content, DatabricksClient.decode_try.
    now rewrite Hprefix, b64decode_b64encode_bytes.
Qed.

Lemma C2_base64_sniffing_witness :
  DatabricksClient.decode_content (CBytes (b64encode Examples.pdf_header))
  = Ok Examples.pdf_header.
Proof.
  apply (proj2 (C2_base64_sniffing (b64encode Examples.pdf_header))
               Examples.pdf_header); reflexivity.
Defined.

(** The claim C5 as stated fails on a text holding a lone surrogate: base64
    decoding raises (the text is not ASCII) and so does the UTF-8 encoding
    in the handler, so the decode step raises. *)
Lemma C5_counterexample :
  exists e,
    DatabricksClient.decode_content (CStr Examples.lone_surrogate) = Raise e
    /\ exn_type e = UnicodeEncodeError.
Proof. eexists. vm_compute. split; reflexivity. Qed.

(** C5 (amended). Decode fallback chain: for a text payload the decode step
    first tries base64 and returns the decoded bytes; when base64 decoding
    raises and the text holds no lone surrogate it returns the UTF-8
    encoding of the text; when the text holds a lone surrogate the encoding
    in the handler raises [UnicodeEncodeError] out of the decode step. For a
    byte payload the decode step always returns a value, the payload itself
    when base64 decoding raises. Whatever the decode step does,
    [export_workspace_file] raises nothing to its caller. *)
Theorem C5_decode_fallback (s : pystr) (b : list byte) :
  match b64decode (CStr s) with
  | Ok raw => DatabricksClient.decode_content (CStr s) = Ok raw
  | Raise _ =>
      if existsb is_surrogate s then
        exists e, DatabricksClient.decode_content (CStr s) = Raise e
                  /\ exn_type e = UnicodeEncodeError
      else
        exists out, encode_utf8 s = Ok out
                    /\ DatabricksClient.decode_content (CStr s) = Ok out
  end
  /\ (exists out, DatabricksClient.decode_content (CBytes b) = Ok out
                  /\ match b64decode (CBytes b) with
                     | Ok _ => True
                     | Raise _ => out = b
                     end)
  /\ (forall (W : Type) (self : DatabricksClient.WorkspaceClient W) p,
        never_raises (DatabricksClient.export_workspace_file self p)).
Proof.
  split; [|split].
  - unfold DatabricksClient.decode_content, DatabricksClient.decode_try.
    destruct (b64decode (CStr s)) as [raw|e]; [reflexivity|].
    cbn [DatabricksClient.decode_except].
    destruct (existsb is_surrogate s) eqn:Hs.
    + apply encode_utf8_surrogate, Hs.
    + destruct (encode_utf8_total s Hs) as [out E]. exists out. now rewrite E.
  - unfold DatabricksClient.decode_content, DatabricksClient.decode_try.
    destruct (startswith b DatabricksClient.JVBERi).
    + destruct (b64decode (CBytes b)) as [raw|e]; eauto.
    + exists b. split; [reflexivity|]. now destruct (b64decode (CBytes b)).
  - intros W self p. apply ExportFacts.export_workspace_file_never_raises.
Qed.

Lemma C5_decode_fallback_witness :
  exists out,
    encode_utf8 [104; 233; 108; 108; 111] = Ok out
    /\ DatabricksClient.decode_content (CStr [104; 233; 108; 108; 111]) = Ok out.
Proof.
  exact (proj1 (C5_decode_fallback [104; 233; 108; 108; 111] [])).
Defined.

(** ** The export fallback protocol *)

(** C3. Fallback exhaustion: when no export attempt for the path has content
    and the direct-download path fails too (the download capability gives
    nothing usable and every REST attempt gives no decodable content),
    [export_workspace_file] returns [None]; it raises nothing. *)
Theorem C3_fallback_exhaustion {W : Type}
    (self : DatabricksClient.WorkspaceClient W) (p : string) :
  (forall f w,
     Fetch.export_empty
       (fst (DatabricksClient.workspace_export self p f w)) = true) ->
  (forall w,
     Fetch.download_fails
       (fst (DatabricksClient.workspace_download self p w)) = true) ->
  (forall url token f w,
     Fetch.rest_fails
       (fst (DatabricksClient.requests_get self url token p f w)) = true) ->
  forall w, exists w1,
    DatabricksClient.export_workspace_file self p w = (Ok None, w1).
Proof.
  intros Hexport Hdownload Hrest w.
  now apply ExportFacts.export_workspace_file_none.
Qed.

Lemma C3_fallback_exhaustion_witness :
  exists w1,
    DatabricksClient.export_workspace_file
      Examples.unreachable Examples.report_pdf tt = (Ok None, w1).
Proof.
  apply (C3_fallback_exhaustion Examples.unreachable Examples.report_pdf).
  - intros f w. reflexivity.
  - intros w. reflexivity.
  - intros url token f w. reflexivity.
Defined.

(** The claim C4 as stated fails when the first source export of a PDF path
    answers with a response object that has no content: the variable is
    truthy, the loop over the formats is skipped, and the HTML export, which
    would have answered with content, is never attempted. *)
Lemma C4_counterexample :
  DatabricksClient.is_pdf_path Examples.report_pdf = true
  /\ Trace.answered
       (fst (DatabricksClient.workspace_export
               Examples.source_without_content Examples.report_pdf
               DatabricksClient.SOURCE tt)) = false
  /\ Trace.answered
       (fst (DatabricksClient.workspace_export
               Examples.source_without_content Examples.report_pdf
               DatabricksClient.HTML tt)) = true
  /\ DatabricksClient.export_attempts
       (Trace.traced Examples.source_without_content)
       Examples.report_pdf (tt, [])
     = (Ok (Some {| DatabricksClient.content_of := None |}),
        (tt, [(DatabricksClient.SOURCE, false)])).
Proof. vm_compute. repeat split. Qed.

(** C4 (amended). Export format cascade: for a path that ends in [.pdf]
    (in any letter case) the first export attempt asks for the source
    format. When that attempt raises or returns no response object, the
    formats source, HTML, Jupyter are tried in that order and the attempts
    stop at the first answer with content; when it returns a response
    object, with or without content, no other format is attempted. The
    recorded run and the plain run give the same result and world. *)
Theorem C4_export_cascade {W : Type}
    (self : DatabricksClient.WorkspaceClient W) (p : string) (w : W) :
  DatabricksClient.is_pdf_path p = true ->
  let first := fst (DatabricksClient.workspace_export
                      self p DatabricksClient.SOURCE w) in
  exists r w1 l,
    DatabricksClient.export_attempts (Trace.traced self) p (w, [])
      = (Ok r, (w1, (DatabricksClient.SOURCE, Trace.answered first) :: l))
    /\ DatabricksClient.export_attempts self p w = (Ok r, w1)
    /\ match first with
       | Ok (Some response) => l = [] /\ r = Some response
       | _ =>
           Trace.stops_at_first_content
             [DatabricksClient.SOURCE; DatabricksClient.HTML;
              DatabricksClient.JUPYTER] l
           /\ (existsb snd l = true -> DatabricksClient.has_content r = true)
       end.
Proof.
  intros Hpdf first.
  assert (Hrun : exists r w1 l,
    DatabricksClient.export_attempts (Trace.traced self) p (w, [])
      = (Ok r, (w1, (DatabricksClient.SOURCE, Trace.answered first) :: l))
    /\ match first with
       | Ok (Some response) => l = [] /\ r = Some response
       | _ =>
           Trace.stops_at_first_content
             [DatabricksClient.SOURCE; DatabricksClient.HTML;
              DatabricksClient.JUPYTER] l
           /\ (existsb snd l = true -> DatabricksClient.has_content r = true)
       end).
  { subst first.
    unfold DatabricksClient.export_attempts, bind, try_catch.
    rewrite Hpdf. cbn [Trace.traced DatabricksClient.workspace_export].
    destruct (DatabricksClient.workspace_export self p DatabricksClient.SOURCE w)
      as [[[response|]|e] w0]; cbn [fst ret DatabricksClient.truthy negb].
    - exists (Some response), w0, []. repeat split.
    - destruct (TraceFacts.export_formats_log self p
                  [DatabricksClient.SOURCE; DatabricksClient.HTML;
                   DatabricksClient.JUPYTER] None w0
                  ([] ++ [(DatabricksClient.SOURCE,
                           Trace.answered (Ok None))]))
        as (r & w1 & l & E & Hl & Hc).
      exists r, w1, l. split; [exact E|]. now split.
    - destruct (TraceFacts.export_formats_log self p
                  [DatabricksClient.SOURCE; DatabricksClient.HTML;
                   DatabricksClient.JUPYTER] None w0
                  ([] ++ [(DatabricksClient.SOURCE,
                           Trace.answered (Raise e))]))
        as (r & w1 & l & E & Hl & Hc).
      exists r, w1, l. split; [exact E|]. now split. }
  destruct Hrun as (r & w1 & l & E & Hl).
  exists r, w1, l. split; [exact E|]. split; [|exact Hl].
  pose proof (TraceFacts.export_attempts_erase self p w []) as Herase.
  destruct (DatabricksClient.export_attempts self p w) as [r0 w0].
  destruct Herase as [log1 E1]. rewrite E in E1.
  now inversion E1.
Qed.

Lemma C4_export_cascade_witness :
  exists r w1 l,
    DatabricksClient.export_attempts
      (Trace.traced Examples.unreachable) Examples.report_pdf (tt, [])
      = (Ok r, (w1, (DatabricksClient.SOURCE, false) :: l))
    /\ DatabricksClient.export_attempts
         Examples.unreachable Examples.report_pdf tt = (Ok r, w1)
    /\ Trace.stops_at_first_content
         [DatabricksClient.SOURCE; DatabricksClient.HTML;
          DatabricksClient.JUPYTER] l
    /\ (existsb snd l = true -> DatabricksClient.has_content r = true).
Proof.
  destruct (C4_export_cascade Examples.unreachable Examples.report_pdf tt
              eq_refl) as (r & w1 & l & E & E' & Hl).
  exists r, w1, l. split; [exact E|]. split; [exact E'|]. exact Hl.
Defined.

(** The guard in front of the decode step: the text of an upload is truthy
    exactly when the uploaded bytes are not empty, and then the export
    gives the uploaded bytes back. *)
Lemma upload_text_truthy (B : list byte) :
  content_truthy (CStr (ascii_text (b64encode B)))
  = match B with [] => false | _ => true end.
Proof. now destruct B as [|a [|b [|c rest]]]. Qed.

Lemma export_returns_upload {W : Type}
    (self : DatabricksClient.WorkspaceClient W) (p : string) (w w1 : W)
    (r : option DatabricksClient.ExportResponse) (B : list byte) :
  DatabricksClient.export_attempts self p w = (Ok r, w1) ->
  DatabricksClient.content_if_any r
  = Some (CStr (ascii_text (b64encode B))) ->
  DatabricksClient.export_workspace_file self p w = (Ok (Some B), w1).
Proof.
  intros E Hc.
  unfold DatabricksClient.export_workspace_file, try_catch, bind.
  rewrite E, Hc. unfold lift.
  unfold DatabricksClient.decode_content, DatabricksClient.decode_try.
  now rewrite b64decode_b64encode_text.
Qed.

(** ** Listing *)

Module ListingFacts.
Import DatabricksClient.

Lemma append_entries_map (objects : list ObjectInfo) :
  forall files,
    append_entries objects files = files ++ map file_entry objects.
Proof.
  induction objects as [|obj objects IH]; intros files.
  - cbn. now rewrite app_nil_r.
  - cbn [append_entries map]. rewrite IH, <- app_assoc. reflexivity.
Qed.

End ListingFacts.

(** C9. Listing silent-empty policy: [list_workspace_files] raises nothing.
    When the listing completes it returns one [{path, object_type,
    language}] entry per listed object, in order; when the listing fails,
    even after yielding objects, it returns the empty list, so a failed
    listing and an empty directory give the same result. *)
Theorem C9_listing_silent_empty {W : Type}
    (self : DatabricksClient.WorkspaceClient W) (p : string) (w : W) :
  let '((objects, failure), w1) := DatabricksClient.workspace_list self p w in
  DatabricksClient.list_workspace_files self p w
  = (Ok match failure with
        | None => map DatabricksClient.file_entry objects
        | Some _ => []
        end, w1).
Proof.
  unfold DatabricksClient.list_workspace_files, try_catch.
  destruct (DatabricksClient.workspace_list self p w)
    as [[objects [e|]] w1].
  - reflexivity.
  - now rewrite ListingFacts.append_entries_map.
Qed.

(** A listing that breaks after one item cannot be told from an empty
    directory. *)
Lemma listing_failure_looks_empty :
  DatabricksClient.list_workspace_files
    SqlExamples.listing_breaks "/Shared" tt
  = DatabricksClient.list_workspace_files
      (SqlExamples.listing_of []) "/Shared" tt.
Proof. reflexivity. Qed.

Lemma listing_entries_example :
  DatabricksClient.list_workspace_files
    (SqlExamples.listing_of [SqlExamples.notebook; SqlExamples.folder])
    "/Shared" tt
  = (Ok [ {| DatabricksClient.path := "/Shared/etl";
             DatabricksClient.object_type := "NOTEBOOK";
             DatabricksClient.language := Some "PYTHON"%string |};
          {| DatabricksClient.path := "/Shared/raw";
             DatabricksClient.object_type := "unknown";
             DatabricksClient.language := None |} ], tt).
Proof. reflexivity. Qed.

(** ** SQL execution *)

Module SqlFacts.
Import DatabricksClient.

Section WithClient.
Context {W : Type}.
Variable self : WorkspaceClient W.

Lemma execute_sql_query_never_raises sql wid :
  never_raises (execute_sql_query self sql wid).
Proof.
  apply try_catch_never_raises. intros e. apply ret_never_raises.
Qed.

(** Once the warehouse is known the query is the statement run on it,
    under the outer handler. *)
Lemma execute_sql_query_resolved sql wid w wh w1 :
  resolve_warehouse self wid w = (Ok (inr wh), w1) ->
  execute_sql_query self sql wid w
  = try_catch (run_statement self sql wh)
              (fun e => ret (SqlFailure (exn_str e))) w1.
Proof.
  intros E. unfold execute_sql_query, try_catch, bind. now rewrite E.
Qed.

Lemma run_statement_succeeded sql wh w1 stmt w2 st :
  execute_statement self wh sql "30s" w1 = (Ok stmt, w2) ->
  status stmt = Some st ->
  state st = Some SUCCEEDED ->
  run_statement self sql wh w1
  = (Ok (SqlSuccess (extract_rows (result stmt)) (statement_id stmt) wh),
     w2).
Proof.
  intros E Hst Hs. unfold run_statement, bind.
  rewrite E, Hst, Hs. reflexivity.
Qed.

Lemma execute_sql_query_succeeded sql wid w wh w1 stmt w2 st :
  resolve_warehouse self wid w = (Ok (inr wh), w1) ->
  execute_statement self wh sql "30s" w1 = (Ok stmt, w2) ->
  status stmt = Some st ->
  state st = Some SUCCEEDED ->
  execute_sql_query self sql wid w
  = (Ok (SqlSuccess (extract_rows (result stmt)) (statement_id stmt) wh),
     w2).
Proof.
  intros Er E Hst Hs.
  rewrite (execute_sql_query_resolved sql wid w wh w1 Er).
  unfold try_catch.
  now rewrite (run_statement_succeeded sql wh w1 stmt w2 st E Hst Hs).
Qed.

(** A success result carries the warehouse the statement ran on. *)
Lemma run_statement_warehouse sql wh w1 data sid wh' w2 :
  try_catch (run_statement self sql wh)
            (fun e => ret (SqlFailure (exn_str e))) w1
  = (Ok (SqlSuccess data sid wh'), w2) ->
  wh' = wh.
Proof.
  unfold try_catch, run_statement, bind.
  destruct (execute_statement self wh sql "30s" w1) as [[stmt|e] w3];
    [|discriminate].
  destruct (status stmt) as [st|]; [|discriminate].
  destruct (is_succeeded (state st)); cbn [ret]; [|discriminate].
  intros E. now inversion E.
Qed.

Lemma resolve_given wid w :
  str_truthy wid = true ->
  resolve_warehouse self wid w = (Ok (inr wid), w).
Proof. intros H. unfold resolve_warehouse. now rewrite H. Qed.

Lemma resolve_first wid w first others w1 :
  str_truthy wid = false ->
  warehouses_list self w = (Ok (first :: others), w1) ->
  resolve_warehouse self wid w = (Ok (inr (id first)), w1).
Proof.
  intros H E. unfold resolve_warehouse. rewrite H. cbn [negb].
  unfold bind. now rewrite E.
Qed.

End WithClient.
End SqlFacts.

(** C7. Warehouse auto-selection: a query without warehouse id runs on the
    first warehouse of the listing, and when its statement succeeds the
    result is a success that carries this warehouse's id; no success result
    carries another id. With no warehouse the result is the failure
    ["No SQL warehouses available"]. Nothing is raised. *)
Theorem C7_warehouse_auto_selection {W : Type}
    (self : DatabricksClient.WorkspaceClient W)
    (sql : string) (wid : option string) (w : W)
    (warehouses : list DatabricksClient.EndpointInfo) (w1 : W) :
  DatabricksClient.str_truthy wid = false ->
  DatabricksClient.warehouses_list self w = (Ok warehouses, w1) ->
  match warehouses with
  | [] =>
      DatabricksClient.execute_sql_query self sql wid w
      = (Ok (DatabricksClient.SqlFailure "No SQL warehouses available"), w1)
  | first :: _ =>
      DatabricksClient.execute_sql_query self sql wid w
      = try_catch
          (DatabricksClient.run_statement self sql (DatabricksClient.id first))
          (fun e => ret (DatabricksClient.SqlFailure (exn_str e))) w1
      /\ (forall stmt w2 st,
            DatabricksClient.execute_statement
              self (DatabricksClient.id first) sql "30s" w1 = (Ok stmt, w2) ->
            DatabricksClient.status stmt = Some st ->
            DatabricksClient.state st = Some DatabricksClient.SUCCEEDED ->
            DatabricksClient.execute_sql_query self sql wid w
            = (Ok (DatabricksClient.SqlSuccess
                     (DatabricksClient.extract_rows
                        (DatabricksClient.result stmt))
                     (DatabricksClient.statement_id stmt)
                     (DatabricksClient.id first)), w2))
      /\ (forall data sid wh w2,
            DatabricksClient.execute_sql_query self sql wid w
            = (Ok (DatabricksClient.SqlSuccess data sid wh), w2) ->
            wh = DatabricksClient.id first)
  end
  /\ never_raises (DatabricksClient.execute_sql_query self sql wid).
Proof.
  intros Hwid Hlist. split; [|apply SqlFacts.execute_sql_query_never_raises].
  destruct warehouses as [|first others].
  - unfold DatabricksClient.execute_sql_query, try_catch,
      DatabricksClient.resolve_warehouse.
    rewrite Hwid. cbn [negb]. unfold bind. now rewrite Hlist.
  - pose proof (SqlFacts.resolve_first self wid w first others w1 Hwid Hlist)
      as Hres.
    pose proof (SqlFacts.execute_sql_query_resolved self sql wid w _ w1 Hres)
      as Hrun.
    split; [exact Hrun|]. split.
    + intros stmt w2 st E Hst Hs.
      now apply (SqlFacts.execute_sql_query_succeeded self sql wid w _ w1
                   stmt w2 st).
    + intros data sid wh w2 E. rewrite Hrun in E.
      now apply (SqlFacts.run_statement_warehouse self sql _ w1 data sid wh w2).
Qed.

Lemma C7_warehouse_auto_selection_witness :
  DatabricksClient.execute_sql_query
    (SqlExamples.warehouse_client None) "SELECT 1" None tt
  = (Ok (DatabricksClient.SqlSuccess [] (Some "01ef-statement"%string)
           (Some "wh-first"%string)), tt)
  /\ DatabricksClient.execute_sql_query
       SqlExamples.no_warehouse "SELECT 1" (Some ""%string) tt
     = (Ok (DatabricksClient.SqlFailure "No SQL warehouses available"), tt).
Proof.
  split.
  - destruct (C7_warehouse_auto_selection
                (SqlExamples.warehouse_client None) "SELECT 1" None tt
                SqlExamples.warehouses tt eq_refl eq_refl)
      as [(_ & Hsucc & _) _].
    exact (Hsucc (SqlExamples.succeeded None) tt _ eq_refl eq_refl eq_refl).
  - exact (proj1 (C7_warehouse_auto_selection
                    SqlExamples.no_warehouse "SELECT 1" (Some ""%string) tt
                    [] tt eq_refl eq_refl)).
Defined.

(** C10. A statement that completes in the SUCCEEDED state without result,
    or with a result whose [data_array] is [None] or empty, gives a success
    whose data is the empty list and which carries the statement id and the
    warehouse the query ran on. *)
Theorem C10_empty_result_is_success {W : Type}
    (self : DatabricksClient.WorkspaceClient W)
    (sql : string) (wid : option string) (w : W)
    (wh : option string) (w1 : W)
    (stmt : DatabricksClient.StatementResponse) (w2 : W)
    (st : DatabricksClient.StatementStatus) :
  DatabricksClient.resolve_warehouse self wid w = (Ok (inr wh), w1) ->
  DatabricksClient.execute_statement self wh sql "30s" w1 = (Ok stmt, w2) ->
  DatabricksClient.status stmt = Some st ->
  DatabricksClient.state st = Some DatabricksClient.SUCCEEDED ->
  match DatabricksClient.result stmt with
  | None => True
  | Some rd =>
      DatabricksClient.data_array rd = None
      \/ DatabricksClient.data_array rd = Some []
  end ->
  DatabricksClient.execute_sql_query self sql wid w
  = (Ok (DatabricksClient.SqlSuccess
           [] (DatabricksClient.statement_id stmt) wh), w2)
  /\ (DatabricksClient.str_truthy wid = true -> wh = wid).
Proof.
  intros Hres E Hst Hs Hempty. split.
  - rewrite (SqlFacts.execute_sql_query_succeeded self sql wid w wh w1
               stmt w2 st Hres E Hst Hs).
    unfold DatabricksClient.extract_rows.
    destruct (DatabricksClient.result stmt) as [rd|]; [|reflexivity].
    destruct Hempty as [-> | ->]; reflexivity.
  - intros Hwid. rewrite (SqlFacts.resolve_given self wid w Hwid) in Hres.
    now inversion Hres.
Qed.

Lemma C10_empty_result_is_success_witness :
  DatabricksClient.execute_sql_query
    (SqlExamples.warehouse_client
       (Some {| DatabricksClient.data_array := Some [];
                DatabricksClient.schema := DatabricksClient.NoAttr;
                DatabricksClient.manifest := DatabricksClient.NoAttr |}))
    "SELECT 1 WHERE false" (Some "wh-given"%string) tt
  = (Ok (DatabricksClient.SqlSuccess [] (Some "01ef-statement"%string)
           (Some "wh-given"%string)), tt).
Proof.
  refine (proj1 (C10_empty_result_is_success
                   (SqlExamples.warehouse_client _)
                   "SELECT 1 WHERE false" (Some "wh-given"%string) tt
                   (Some "wh-given"%string) tt
                   (SqlExamples.succeeded _) tt _
                   eq_refl eq_refl eq_refl eq_refl _)).
  right. reflexivity.
Defined.

(** ** Rows as dictionaries *)

Module RowFacts.
Import DatabricksClient.

Section WithColumns.
Variable cols : list string.

(** A key no later position writes keeps the value it had. *)
Lemma fill_row_other (row : list sql_value) :
  forall (i : nat) (d : gmap string sql_value) (k : string),
    (forall j, (j < length row)%nat -> column_name cols (i + j) <> k) ->
    fill_row cols i row d !! k = d !! k.
Proof.
  induction row as [|v row IH]; intros i d k Hk; [reflexivity|].
  cbn [fill_row]. rewrite IH.
  - apply lookup_insert_ne.
    specialize (Hk 0%nat). rewrite Nat.add_0_r in Hk.
    apply Hk. cbn [length]. lia.
  - intros j Hj. replace (S i + j)%nat with (i + S j)%nat by lia.
    apply Hk. cbn [length]. lia.
Qed.

(** Python dict assignment: the value under a key is the one at the
    last position that has this key. *)
Lemma fill_row_last (row : list sql_value) :
  forall (i : nat) (d : gmap string sql_value) (j : nat) (v : sql_value),
    row !! j = Some v ->
    (forall j' v', (j < j')%nat -> row !! j' = Some v' ->
                   column_name cols (i + j') <> column_name cols (i + j)) ->
    fill_row cols i row d !! column_name cols (i + j) = Some v.
Proof.
  induction row as [|v0 row IH]; intros i d j v Hj Hlast; [discriminate|].
  cbn [fill_row]. destruct j as [|j].
  - cbn in Hj. inversion Hj; subst v0. rewrite Nat.add_0_r.
    rewrite fill_row_other.
    + apply lookup_insert_eq.
    + intros j' Hj'. replace (S i + j')%nat with (i + S j')%nat by lia.
      destruct (lookup_lt_is_Some_2 row j' Hj') as [v' Hv'].
      specialize (Hlast (S j') v'). rewrite Nat.add_0_r in Hlast.
      apply Hlast; [lia | exact Hv'].
  - replace (i + S j)%nat with (S i + j)%nat by lia.
    apply IH; [exact Hj|].
    intros j' v' Hlt Hv'.
    replace (S i + j')%nat with (i + S j')%nat by lia.
    replace (S i + j)%nat with (i + S j)%nat by lia.
    apply (Hlast (S j') v'); [lia | exact Hv'].
Qed.




End WithColumns.

Lemma column_name_recovered (cols : list string) (i : nat) :
  (i < length cols)%nat -> column_name cols i = nth i cols ""%string.
Proof.
  intros H. unfold column_name. apply Nat.ltb_lt in H. now rewrite H.
Qed.

Lemma column_name_positional (cols : list string) (i : nat) :
  (length cols <= i)%nat -> column_name cols i = generic_name i.
Proof.
  intros H. unfold column_name. apply Nat.ltb_ge in H. now rewrite H.
Qed.





End RowFacts.



(** The third cell of a row of the example has no recovered name and is
    stored under [col_2]. *)
Lemma documents_third_cell :
  DatabricksClient.row_to_dict ["id"; "title"]%string
    [Some "2"; Some "notes.pdf"; Some "draft"]%string !! "col_2"%string
  = Some (Some "draft"%string).
Proof. vm_compute. reflexivity. Qed.

(** ** The chat boundary *)

Module BackendFacts.
Import Backend.

Section WithApp.
Context {W : Type}.
Variable app : Collaborators W.

Lemma query_pdf_never_raises (message : ChatMessage) :
  never_raises (query_pdf app message).
Proof.
  apply try_catch_never_raises. intros e. apply ret_never_raises.
Qed.

(** Whatever the body raises becomes the failure response. *)
Lemma query_pdf_catches message w e w1 :
  query_pdf_body app message w = (Raise e, w1) ->
  query_pdf app message w
  = (Ok {| success := false;
           answer := None;
           conversation_id := None;
           metadata := None;
           error := Some (exn_str e) |}, w1).
Proof.
  intros E. unfold query_pdf, try_catch. now rewrite E.
Qed.

Lemma query_pdf_passes message w response w1 :
  query_pdf_body app message w = (Ok response, w1) ->
  query_pdf app message w = (Ok response, w1).
Proof.
  intros E. unfold query_pdf, try_catch. now rewrite E.
Qed.

(** A document fetch without bytes raises the 404 exception. *)
Lemma body_without_content message w engine manager fetched w1 :
  ai_engine app w = Some engine ->
  pdf_manager app w = Some manager ->
  get_pdf_content app manager (pdf_path message) w = (Ok fetched, w1) ->
  fetched = None \/ fetched = Some [] ->
  query_pdf_body app message w
  = (Raise (http_exception 404 "PDF content not found"), w1).
Proof.
  intros He Hm Hget Hnone.
  unfold query_pdf_body, bind, global.
  rewrite He. cbn beta iota. rewrite Hm. cbn beta iota.
  rewrite Hm. cbn beta iota. rewrite Hget. now destruct Hnone as [-> | ->].
Qed.

Lemma body_without_engine message w :
  ai_engine app w = None ->
  query_pdf_body app message w
  = (Raise (http_exception 400 "AI engine not configured"), w).
Proof.
  intros He. unfold query_pdf_body, bind. now rewrite He.
Qed.

End WithApp.
End BackendFacts.

(** C6. Query boundary: [query_pdf] raises nothing. Whatever a step of its
    body raises gives a response with [success = false] and the text of the
    exception as error; in particular a document fetch that yields [None]
    (or no bytes) gives [success = false] with the error of the 404
    "PDF content not found" exception, and a missing engine gives the error
    of the 400 exception. A result the body returns is passed on as it
    is. *)
Theorem C6_query_boundary {W : Type}
    (app : Backend.Collaborators W) (message : Backend.ChatMessage) (w : W) :
  (exists response w1, Backend.query_pdf app message w = (Ok response, w1))
  /\ (forall e w1,
        Backend.query_pdf_body app message w = (Raise e, w1) ->
        Backend.query_pdf app message w
        = (Ok {| Backend.success := false;
                 Backend.answer := None;
                 Backend.conversation_id := None;
                 Backend.metadata := None;
                 Backend.error := Some (exn_str e) |}, w1))
  /\ (forall engine manager fetched w1,
        Backend.ai_engine app w = Some engine ->
        Backend.pdf_manager app w = Some manager ->
        Backend.get_pdf_content app manager (Backend.pdf_path message) w
        = (Ok fetched, w1) ->
        fetched = None \/ fetched = Some [] ->
        Backend.query_pdf app message w
        = (Ok {| Backend.success := false;
                 Backend.answer := None;
                 Backend.conversation_id := None;
                 Backend.metadata := None;
                 Backend.error := Some "404: PDF content not found"%string |},
           w1))
  /\ (Backend.ai_engine app w = None ->
      Backend.query_pdf app message w
      = (Ok {| Backend.success := false;
               Backend.answer := None;
               Backend.conversation_id := None;
               Backend.metadata := None;
               Backend.error := Some "400: AI engine not configured"%string |},
         w))
  /\ (forall response w1,
        Backend.query_pdf_body app message w = (Ok response, w1) ->
        Backend.query_pdf app message w = (Ok response, w1)).
Proof.
  split; [|split; [|split; [|split]]].
  - apply BackendFacts.query_pdf_never_raises.
  - intros e w1. apply BackendFacts.query_pdf_catches.
  - intros engine manager fetched w1 He Hm Hget Hnone.
    exact (BackendFacts.query_pdf_catches app message w _ w1
             (BackendFacts.body_without_content app message w engine manager
                fetched w1 He Hm Hget Hnone)).
  - intros He.
    exact (BackendFacts.query_pdf_catches app message w _ w
             (BackendFacts.body_without_engine app message w He)).
  - intros response w1. apply BackendFacts.query_pdf_passes.
Qed.

Lemma C6_query_boundary_witness :
  Backend.query_pdf
    (BackendExamples.app_with (Ok None) (Raise BackendExamples.engine_down))
    BackendExamples.what_is_this tt
  = (Ok {| Backend.success := false;
           Backend.answer := None;
           Backend.conversation_id := None;
           Backend.metadata := None;
           Backend.error := Some "404: PDF content not found"%string |}, tt)
  /\ Backend.query_pdf
       (BackendExamples.app_with (Ok (Some Examples.pdf_header))
                                 (Raise BackendExamples.engine_down))
       BackendExamples.what_is_this tt
     = (Ok {| Backend.success := false;
              Backend.answer := None;
              Backend.conversation_id := None;
              Backend.metadata := None;
              Backend.error := Some "model endpoint timed out"%string |}, tt).
Proof.
  split.
  - refine (proj1 (proj2 (proj2 (C6_query_boundary
              (BackendExamples.app_with (Ok None)
                 (Raise BackendExamples.engine_down))
              BackendExamples.what_is_this tt))) tt tt None tt
              eq_refl eq_refl eq_refl _).
    now left.
  - exact (proj1 (proj2 (C6_query_boundary
              (BackendExamples.app_with (Ok (Some Examples.pdf_header))
                 (Raise BackendExamples.engine_down))
              BackendExamples.what_is_this tt))
             BackendExamples.engine_down tt eq_refl).
Defined.

(** A query without conversation id that the engine answers gets a fresh
    id and the engine's fields. *)
Lemma query_answered_example :
  Backend.query_pdf
    (BackendExamples.app_with
       (Ok (Some Examples.pdf_header))
       (Ok {| Backend.r_success := Some true;
              Backend.r_answer := Some "A PDF header."%string;
              Backend.r_metadata := None;
              Backend.r_error := None |}))
    BackendExamples.what_is_this tt
  = (Ok {| Backend.success := true;
           Backend.answer := Some "A PDF header."%string;
           Backend.conversation_id :=
             Some "3f2b8c1e-0000-4000-8000-000000000001"%string;
           Backend.metadata := None;
           Backend.error := None |}, tt).
Proof. reflexivity. Qed.

(** * Further properties of the client *)

(** ** The decode step on text that is not base64 *)

Lemma a2b_loop_skips (ascii : list byte) :
  forall leftchar pads produced,
    Forall (fun c => Base64.a2b c = None) ascii ->
    Base64.a2b_loop ascii 0 leftchar pads produced = Ok [].
Proof.
  induction ascii as [|c ascii IH]; intros leftchar pads produced Hall;
    [reflexivity|].
  inversion Hall as [|? ? Hc Hrest]; subst.
  cbn [Base64.a2b_loop]. rewrite Hc.
  destruct (Byte.eqb c Base64.BASE64_PAD); cbn [N.leb N.compare]; now apply IH.
Qed.

Lemma encode_ascii_below (s : pystr) :
  forallb (fun cp => cp <? 128) s = true ->
  encode_ascii s = Ok (map byte_of_N s).
Proof.
  induction s as [|cp s IH]; intros Hs; [reflexivity|].
  cbn [forallb] in Hs. apply andb_prop in Hs. destruct Hs as [Hcp Hs].
  cbn [encode_ascii map]. now rewrite Hcp, (IH Hs).
Qed.

Lemma encode_utf8_below (s : pystr) :
  forallb (fun cp => cp <? 128) s = true ->
  encode_utf8 s = Ok (map byte_of_N s).
Proof.
  induction s as [|cp s IH]; intros Hs; [reflexivity|].
  cbn [forallb] in Hs. apply andb_prop in Hs. destruct Hs as [Hcp Hs].
  cbn [encode_utf8 map]. rewrite (IH Hs).
  assert (Hn : is_surrogate cp = false).
  { unfold is_surrogate. apply N.ltb_lt in Hcp. apply andb_false_iff. left.
    apply N.leb_gt. lia. }
  rewrite Hn. unfold utf8_code_point. now rewrite Hcp.
Qed.

(** X7. A text payload made only of ASCII characters outside the base64
    alphabet passes the lenient base64 decoding, which skips every one of
    them: the decode step returns the empty bytes, not the UTF-8 encoding
    of the text, which has one byte per character. *)
Theorem decode_text_outside_alphabet (s : pystr) :
  forallb outside_alphabet s = true ->
  DatabricksClient.decode_content (CStr s) = Ok []
  /\ encode_utf8 s = Ok (map byte_of_N s).
Proof.
  intros Hs.
  assert (Hascii : forallb (fun cp => cp <? 128) s = true).
  { rewrite forallb_forall in Hs |- *. intros cp Hin.
    specialize (Hs cp Hin). unfold outside_alphabet in Hs.
    now apply andb_prop in Hs. }
  split; [|now apply encode_utf8_below].
  unfold DatabricksClient.decode_content, DatabricksClient.decode_try,
    b64decode.
  rewrite (encode_ascii_below s Hascii).
  unfold Base64.a2b_base64. rewrite a2b_loop_skips; [reflexivity|].
  apply List.Forall_forall. intros c Hin.
  apply in_map_iff in Hin. destruct Hin as (cp & <- & Hcp).
  rewrite forallb_forall in Hs. specialize (Hs cp Hcp).
  unfold outside_alphabet in Hs. apply andb_prop in Hs. destruct Hs as [_ Hs].
  now destruct (Base64.a2b (byte_of_N cp)).
Qed.

Lemma decode_text_outside_alphabet_witness :
  DatabricksClient.decode_content (CStr MoreExamples.html_comment) = Ok []
  /\ encode_utf8 MoreExamples.html_comment
     = Ok (map byte_of_N MoreExamples.html_comment).
Proof.
  apply (decode_text_outside_alphabet MoreExamples.html_comment).
  vm_compute. reflexivity.
Defined.

(** ** The direct-download path *)

Module DirectFacts.
Import DatabricksClient.

Section WithClient.
Context {W : Type}.
Variable self : WorkspaceClient W.
Variable p : string.

(** One step of the REST loop: the bytes of the answer end the loop,
    anything else moves on to the next format. *)
Lemma rest_formats_step url token f formats w :
  rest_formats self url token p (f :: formats) w
  = let '(o, w1) := requests_get self url token p f w in
    match Calls.rest_bytes o with
    | Some b => (Ok (Some b), w1)
    | None => rest_formats self url token p formats w1
    end.
Proof.
  cbn [rest_formats]. unfold bind at 1. unfold try_catch, bind.
  destruct (requests_get self url token p f w) as [[response|e] w1];
    cbn [Calls.rest_bytes]; [|reflexivity].
  destruct (status_code response =? 200)%Z; [|reflexivity].
  destruct (json response) as [e| |s|]; try reflexivity.
  unfold lift. now destruct (b64decode (CStr s)).
Qed.

Lemma export_formats_never_raises formats :
  forall cur, never_raises (export_formats self p formats cur).
Proof.
  induction formats as [|f formats IH]; intros cur w.
  - now exists cur, w.
  - cbn [export_formats]. unfold bind, try_catch.
    destruct (workspace_export self p f w) as [[r|e] w1].
    + destruct (has_content r); cbn [ret]; [eauto | apply IH].
    + cbn [ret]. apply IH.
Qed.

Lemma export_attempts_never_raises :
  never_raises (export_attempts self p).
Proof.
  intros w. unfold export_attempts, bind, try_catch.
  destruct (is_pdf_path p).
  - destruct (workspace_export self p SOURCE w) as [[[r|]|e] w1];
      cbn [ret truthy negb]; [eauto | |];
      apply export_formats_never_raises.
  - cbn [ret truthy negb]. apply export_formats_never_raises.
Qed.

End WithClient.
End DirectFacts.

(** X4. The REST fallback asks the export endpoint for the source format
    first and returns the bytes its answer decodes to; it asks for the auto
    format only when the source answer gave no bytes (request raised,
    status not 200, no decodable [content]) and then returns the bytes of
    that answer, or [None]. It raises nothing and asks nothing else. *)
Theorem download_via_rest_api_spec {W : Type}
    (self : DatabricksClient.WorkspaceClient W) (p : string) (w : W) :
  let url := DatabricksClient.config_host self +:+ "/api/2.0/workspace/export" in
  let token := DatabricksClient.config_token self in
  DatabricksClient._download_via_rest_api self p w
  = let '(source, w1) :=
      DatabricksClient.requests_get self url token p "SOURCE" w in
    match Calls.rest_bytes source with
    | Some b => (Ok (Some b), w1)
    | None =>
        let '(auto, w2) :=
          DatabricksClient.requests_get self url token p "AUTO" w1 in
        (Ok (Calls.rest_bytes auto), w2)
    end.
Proof.
  intros url token.
  unfold DatabricksClient._download_via_rest_api, try_catch.
  fold url token. rewrite DirectFacts.rest_formats_step.
  destruct (DatabricksClient.requests_get self url token p "SOURCE" w)
    as [source w1].
  destruct (Calls.rest_bytes source) as [b|]; [reflexivity|].
  rewrite DirectFacts.rest_formats_step.
  destruct (DatabricksClient.requests_get self url token p "AUTO" w1)
    as [auto w2].
  now destruct (Calls.rest_bytes auto).
Qed.

(** X3. The direct download returns the bytes the client's download gives
    when these are not empty, without any REST request; when the download
    raises, returns nothing, returns empty bytes or returns an object whose
    length cannot be taken, the result is exactly that of the REST
    fallback. *)
Theorem download_file_direct_spec {W : Type}
    (self : DatabricksClient.WorkspaceClient W) (p : string) (w : W) :
  DatabricksClient._download_file_direct self p w
  = let '(o, w1) := DatabricksClient.workspace_download self p w in
    match Calls.download_bytes o with
    | Some b => (Ok (Some b), w1)
    | None => DatabricksClient._download_via_rest_api self p w1
    end.
Proof.
  unfold DatabricksClient._download_file_direct, try_catch, bind.
  destruct (DatabricksClient.workspace_download self p w)
    as [[[| [|b l] |]|e] w1];
    cbn [Calls.download_bytes]; unfold ret, raise, DatabricksClient.no_len;
    cbn [exn_type]; try reflexivity;
    try destruct (exn_type e);
    destruct (ExportFacts.download_via_rest_api_never_raises self p w1)
      as (a & w2 & E); now rewrite E.
Qed.

(** X1. The export as a whole: the export attempts raise nothing; when
    the selected answer has content that the decode step turns into bytes,
    these bytes are returned and no download is attempted; when there is no
    content, or the decode step raises, the result is exactly that of the
    direct download, run after the attempts. *)
Theorem export_workspace_file_spec {W : Type}
    (self : DatabricksClient.WorkspaceClient W) (p : string) (w : W) :
  exists answer w1,
    DatabricksClient.export_attempts self p w = (Ok answer, w1)
    /\ DatabricksClient.export_workspace_file self p w
       = match DatabricksClient.content_if_any answer with
         | Some c =>
             match DatabricksClient.decode_content c with
             | Ok file_content => (Ok (Some file_content), w1)
             | Raise _ => DatabricksClient._download_file_direct self p w1
             end
         | None => DatabricksClient._download_file_direct self p w1
         end.
Proof.
  pose proof (DirectFacts.export_attempts_never_raises self p w) as Hok.
  destruct Hok as (answer & w1 & E). exists answer, w1. split; [exact E|].
  unfold DatabricksClient.export_workspace_file, try_catch, bind.
  rewrite E.
  destruct (DatabricksClient.content_if_any answer) as [c|].
  - unfold lift. now destruct (DatabricksClient.decode_content c).
  - destruct (ExportFacts.download_file_direct_never_raises self p w1)
      as (a & w2 & E2). now rewrite E2.
Qed.

(** ** The calls of an export, in order *)

Module CallFacts.
Import DatabricksClient Calls.

Section WithClient.
Context {W : Type}.
Variable self : WorkspaceClient W.
Variable p : string.

(** The loop asks for a prefix of its formats; recording changes neither
    the result nor the world. *)
Lemma export_formats_calls formats :
  forall cur w log,
  exists r w1 asked rest,
    export_formats (recorded self) p formats cur (w, log)
      = (Ok r, (w1, log ++ map ExportCall asked))
    /\ export_formats self p formats cur w = (Ok r, w1)
    /\ formats = asked ++ rest.
Proof.
  induction formats as [|f formats IH]; intros cur w log.
  - exists cur, w, [], []. cbn. now rewrite app_nil_r.
  - cbn [export_formats]. unfold bind, try_catch.
    cbn [recorded workspace_export].
    destruct (workspace_export self p f w) as [[r|e] w1].
    + destruct (has_content r); cbn [ret].
      * exists r, w1, [f], formats. now repeat split.
      * destruct (IH r w1 (log ++ [ExportCall f]))
          as (r' & w2 & asked & rest & E & E' & ->).
        exists r', w2, (f :: asked), rest.
        rewrite <- app_assoc in E. now repeat split.
    + cbn [ret].
      destruct (IH cur w1 (log ++ [ExportCall f]))
        as (r' & w2 & asked & rest & E & E' & ->).
      exists r', w2, (f :: asked), rest.
      rewrite <- app_assoc in E. now repeat split.
Qed.

Lemma export_attempts_calls (w : W) :
  exists answer w1 asked rest,
    export_attempts (recorded self) p (w, [])
      = (Ok answer,
         (w1, map ExportCall
                ((if is_pdf_path p then [SOURCE] else []) ++ asked)))
    /\ export_attempts self p w = (Ok answer, w1)
    /\ [SOURCE; HTML; JUPYTER] = asked ++ rest.
Proof.
  unfold export_attempts, bind, try_catch.
  cbn [recorded workspace_export].
  destruct (is_pdf_path p).
  - destruct (workspace_export self p SOURCE w) as [[[r|]|e] w1];
      cbn [ret truthy negb].
    + exists (Some r), w1, [], [SOURCE; HTML; JUPYTER]. now repeat split.
    + destruct (export_formats_calls [SOURCE; HTML; JUPYTER] None w1
                  ([] ++ [ExportCall SOURCE]))
        as (r' & w2 & asked & rest & E & E' & Hf).
      exists r', w2, asked, rest. now repeat split.
    + destruct (export_formats_calls [SOURCE; HTML; JUPYTER] None w1
                  ([] ++ [ExportCall SOURCE]))
        as (r' & w2 & asked & rest & E & E' & Hf).
      exists r', w2, asked, rest. now repeat split.
  - cbn [ret truthy negb].
    destruct (export_formats_calls [SOURCE; HTML; JUPYTER] None w [])
      as (r' & w2 & asked & rest & E & E' & Hf).
    exists r', w2, asked, rest. now repeat split.
Qed.

Lemma download_via_rest_api_calls (w : W) (log : list call) :
  exists r w1 tail,
    _download_via_rest_api (recorded self) p (w, log)
      = (Ok r, (w1, log ++ tail))
    /\ _download_via_rest_api self p w = (Ok r, w1)
    /\ rest_calls tail.
Proof.
  unfold _download_via_rest_api, try_catch.
  rewrite !DirectFacts.rest_formats_step.
  cbn [recorded requests_get config_host config_token].
  destruct (requests_get self _ _ p "SOURCE" w) as [source w1].
  destruct (rest_bytes source) as [b|].
  - exists (Some b), w1, [RestCall "SOURCE"]. repeat split. now left.
  - rewrite !DirectFacts.rest_formats_step.
    cbn [recorded requests_get rest_formats ret].
    destruct (requests_get self _ _ p "AUTO" w1) as [auto w2].
    exists (rest_bytes auto), w2, [RestCall "SOURCE"; RestCall "AUTO"].
    rewrite <- app_assoc.
    destruct (rest_bytes auto); repeat split; now right.
Qed.

Lemma download_file_direct_calls (w : W) (log : list call) :
  exists r w1 tail,
    _download_file_direct (recorded self) p (w, log)
      = (Ok r, (w1, log ++ tail))
    /\ _download_file_direct self p w = (Ok r, w1)
    /\ direct_calls tail.
Proof.
  assert (Hrest : forall w1,
            exists r w2 tail,
              _download_via_rest_api (recorded self) p
                (w1, log ++ [DownloadCall])
              = (Ok r, (w2, log ++ tail))
              /\ _download_via_rest_api self p w1 = (Ok r, w2)
              /\ direct_calls tail).
  { intros w1.
    destruct (download_via_rest_api_calls w1 (log ++ [DownloadCall]))
      as (r & w2 & tail & E & E' & Ht).
    exists r, w2, (DownloadCall :: tail).
    rewrite <- app_assoc in E. repeat split; [exact E | exact E' |].
    right. now exists tail. }
  unfold _download_file_direct, try_catch, bind.
  cbn [recorded workspace_download].
  destruct (workspace_download self p w) as [[[| [|b l] |]|e] w1];
    unfold ret, raise, no_len; cbn [exn_type];
    try destruct (exn_type e);
    try (destruct (Hrest w1) as (r & w2 & tail & E & E' & Ht);
         exists r, w2, tail; rewrite E, E'; now repeat split).
  exists (Some (b :: l)), w1, [DownloadCall]. repeat split. now left.
Qed.

End WithClient.
End CallFacts.

(** X2. An export never repeats itself: it asks for the source format once
    more in front when the path ends in [.pdf], then for a prefix of source,
    HTML, Jupyter, then at most once for the download and after it for the
    REST source and possibly the REST auto format; at most seven calls, in
    that order. Recording the calls changes neither result nor world. *)
Theorem export_workspace_file_calls {W : Type}
    (self : DatabricksClient.WorkspaceClient W) (p : string) (w : W) :
  exists r w1 asked rest tail,
    DatabricksClient.export_workspace_file (Calls.recorded self) p (w, [])
      = (r, (w1,
             map Calls.ExportCall
               ((if DatabricksClient.is_pdf_path p
                 then [DatabricksClient.SOURCE] else []) ++ asked)
             ++ tail))
    /\ DatabricksClient.export_workspace_file self p w = (r, w1)
    /\ [DatabricksClient.SOURCE; DatabricksClient.HTML;
        DatabricksClient.JUPYTER] = asked ++ rest
    /\ (tail = [] \/ Calls.direct_calls tail).
Proof.
  destruct (CallFacts.export_attempts_calls self p w)
    as (answer & w1 & asked & rest & E & E' & Hf).
  set (front := map Calls.ExportCall
                  ((if DatabricksClient.is_pdf_path p
                    then [DatabricksClient.SOURCE] else []) ++ asked)) in *.
  destruct (CallFacts.download_file_direct_calls self p w1 front)
    as (r & w2 & tail & Ed & Ed' & Ht).
  unfold DatabricksClient.export_workspace_file, try_catch, bind.
  rewrite E, E'.
  destruct (DatabricksClient.content_if_any answer) as [c|].
  - unfold lift.
    destruct (DatabricksClient.decode_content c) as [b|e]; cbn [ret].
    + exists (Ok (Some b)), w1, asked, rest, [].
      rewrite app_nil_r. repeat split; [exact Hf | now left].
    + rewrite Ed, Ed'.
      exists (Ok r), w2, asked, rest, tail. repeat split; auto.
  - rewrite Ed, Ed'.
    exists (Ok r), w2, asked, rest, tail. repeat split; auto.
Qed.

(** An export that finds nothing in the workspace and is answered by the
    REST endpoint on its second request: six calls. *)
Lemma export_calls_example :
  DatabricksClient.export_workspace_file
    (Calls.recorded MoreExamples.rest_only) "/Shared/notes.txt" (tt, [])
  = (Ok (Some Examples.pdf_header),
     (tt, [ Calls.ExportCall DatabricksClient.SOURCE;
            Calls.ExportCall DatabricksClient.HTML;
            Calls.ExportCall DatabricksClient.JUPYTER;
            Calls.DownloadCall;
            Calls.RestCall "SOURCE"; Calls.RestCall "AUTO" ])).
Proof. vm_compute. reflexivity. Qed.

(** ** Paths that are not PDF files *)

Module CascadeFacts.
Import DatabricksClient Trace.

Lemma export_formats_found {W : Type} (self : WorkspaceClient W)
    (p : string) (formats : list ExportFormat) :
  forall cur w log,
    has_content cur = false ->
    exists r w1 l,
      export_formats (traced self) p formats cur (w, log)
        = (Ok r, (w1, log ++ l))
      /\ stops_at_first_content formats l
      /\ has_content r = existsb snd l.
Proof.
  induction formats as [|f formats IH]; intros cur w log Hcur.
  - exists cur, w, []. rewrite app_nil_r. cbn. now repeat split.
  - cbn [export_formats]. unfold bind, try_catch.
    cbn [traced workspace_export].
    destruct (workspace_export self p f w) as [[r|e] w1]; cbn [answered].
    + destruct (has_content r) eqn:Hr; cbn [ret].
      * exists r, w1, [(f, true)]. cbn. now repeat split.
      * destruct (IH r w1 (log ++ [(f, false)]) Hr)
          as (r' & w2 & l & E & Hl & Hc).
        exists r', w2, ((f, false) :: l).
        rewrite <- app_assoc in E. cbn. now repeat split.
    + cbn [ret].
      destruct (IH cur w1 (log ++ [(f, false)]) Hcur)
        as (r' & w2 & l & E & Hl & Hc).
      exists r', w2, ((f, false) :: l).
      rewrite <- app_assoc in E. cbn. now repeat split.
Qed.

End CascadeFacts.

(** X5. For a path that does not end in [.pdf] the export attempts are the
    formats source, HTML, Jupyter in that order, ending at the first answer
    with content; the selected answer has content exactly when one of the
    attempts had. *)
Theorem export_cascade_other_paths {W : Type}
    (self : DatabricksClient.WorkspaceClient W) (p : string) (w : W) :
  DatabricksClient.is_pdf_path p = false ->
  exists r w1 l,
    DatabricksClient.export_attempts (Trace.traced self) p (w, [])
      = (Ok r, (w1, l))
    /\ DatabricksClient.export_attempts self p w = (Ok r, w1)
    /\ Trace.stops_at_first_content
         [DatabricksClient.SOURCE; DatabricksClient.HTML;
          DatabricksClient.JUPYTER] l
    /\ DatabricksClient.has_content r = existsb snd l.
Proof.
  intros Hpdf.
  destruct (CascadeFacts.export_formats_found self p
              [DatabricksClient.SOURCE; DatabricksClient.HTML;
               DatabricksClient.JUPYTER] None w [] eq_refl)
    as (r & w1 & l & E & Hl & Hc).
  assert (Erun : DatabricksClient.export_attempts (Trace.traced self) p (w, [])
                 = (Ok r, (w1, l))).
  { unfold DatabricksClient.export_attempts, bind. rewrite Hpdf.
    cbn [ret DatabricksClient.truthy negb]. exact E. }
  exists r, w1, l. split; [exact Erun|]. split; [|now split].
  pose proof (TraceFacts.export_attempts_erase self p w []) as Herase.
  destruct (DatabricksClient.export_attempts self p w) as [r0 w0].
  destruct Herase as [log1 E1]. rewrite Erun in E1. now inversion E1.
Qed.

Lemma export_cascade_other_paths_witness :
  exists r w1 l,
    DatabricksClient.export_attempts
      (Trace.traced Examples.source_without_content) "/Shared/notes.txt"
      (tt, []) = (Ok r, (w1, l))
    /\ DatabricksClient.export_attempts
         Examples.source_without_content "/Shared/notes.txt" tt = (Ok r, w1)
    /\ Trace.stops_at_first_content
         [DatabricksClient.SOURCE; DatabricksClient.HTML;
          DatabricksClient.JUPYTER] l
    /\ DatabricksClient.has_content r = existsb snd l.
Proof.
  exact (export_cascade_other_paths Examples.source_without_content
           "/Shared/notes.txt" tt eq_refl).
Defined.

(** ** Upload, notebooks, clusters, construction *)

Module UploadFacts.
Import DatabricksClient DatabricksClientMore.

Lemma first_source_answer {W : Type} (self : WorkspaceClient W)
    (p : string) (w w1 : W) (response : ExportResponse) :
  workspace_export self p SOURCE w = (Ok (Some response), w1) ->
  has_content (Some response) = true ->
  export_attempts self p w = (Ok (Some response), w1).
Proof.
  intros E Hc. unfold export_attempts, bind, try_catch.
  destruct (is_pdf_path p).
  - now rewrite E.
  - cbn [ret truthy negb export_formats]. unfold bind, try_catch.
    now rewrite E, Hc.
Qed.

End UploadFacts.

(** X6. Round trip through the workspace: when the upload call for the
    base64 text of non-empty bytes [B] returns, and the workspace answers
    the source export of the path with that text, then the upload reports
    success and the export returns exactly [B], for PDF and other paths
    alike. *)
Theorem upload_then_export {W : Type}
    (up : DatabricksClientMore.MoreCapabilities W)
    (self : DatabricksClient.WorkspaceClient W)
    (B : list byte) (p : string) (overwrite : bool) (w w1 w2 : W) :
  B <> [] ->
  DatabricksClientMore.workspace_upload up p (ascii_text (b64encode B))
    DatabricksClientMore.IMPORT_AUTO overwrite w = (Ok tt, w1) ->
  DatabricksClient.workspace_export self p DatabricksClient.SOURCE w1
  = (Ok (Some {| DatabricksClient.content_of :=
                   Some (CStr (ascii_text (b64encode B))) |}), w2) ->
  DatabricksClientMore.upload_file_to_workspace up B p overwrite w
  = (Ok (DatabricksClientMore.Uploaded p
           ("File uploaded successfully to " +:+ p)), w1)
  /\ DatabricksClient.export_workspace_file self p w1 = (Ok (Some B), w2).
Proof.
  intros HB Hup Hexp. split.
  - unfold DatabricksClientMore.upload_file_to_workspace, try_catch, bind.
    now rewrite Hup.
  - assert (Ht : content_truthy (CStr (ascii_text (b64encode B))) = true).
    { rewrite upload_text_truthy. now destruct B. }
    apply (export_returns_upload self p w1 w2
             (Some {| DatabricksClient.content_of :=
                        Some (CStr (ascii_text (b64encode B))) |}) B).
    + apply UploadFacts.first_source_answer; [exact Hexp|].
      unfold DatabricksClient.has_content, DatabricksClient.content_if_any.
      now rewrite Ht.
    + unfold DatabricksClient.content_if_any. now rewrite Ht.
Qed.

Lemma upload_then_export_witness :
  DatabricksClientMore.upload_file_to_workspace
    MoreExamples.store_upload Examples.pdf_header Examples.report_pdf true ∅
  = (Ok (DatabricksClientMore.Uploaded Examples.report_pdf
           ("File uploaded successfully to " +:+ Examples.report_pdf)),
     <[Examples.report_pdf := ascii_text (b64encode Examples.pdf_header)]> ∅)
  /\ DatabricksClient.export_workspace_file
       MoreExamples.store_client Examples.report_pdf
       (<[Examples.report_pdf := ascii_text (b64encode Examples.pdf_header)]> ∅)
     = (Ok (Some Examples.pdf_header),
        <[Examples.report_pdf := ascii_text (b64encode Examples.pdf_header)]> ∅).
Proof.
  apply (upload_then_export MoreExamples.store_upload
           MoreExamples.store_client Examples.pdf_header Examples.report_pdf
           true ∅ _ _).
  - discriminate.
  - reflexivity.
  - vm_compute. reflexivity.
Defined.

(** X8. A notebook template that holds a lone surrogate cannot be encoded:
    [create_notebook_from_template] then makes no upload call (the world is
    unchanged) and reports a failure; it raises nothing. For any other
    template the text handed to the workspace is base64 that decodes to the
    UTF-8 encoding of the template. *)
Theorem create_notebook_encoding {W : Type}
    (up : DatabricksClientMore.MoreCapabilities W)
    (p : string) (template : pystr) (overwrite : bool) (w : W) :
  if existsb is_surrogate template then
    exists error,
      DatabricksClientMore.create_notebook_from_template
        up p template overwrite w
      = (Ok (DatabricksClientMore.UploadFailed error), w)
  else
    exists encoded,
      encode_utf8 template = Ok encoded
      /\ b64decode (CStr (ascii_text (b64encode encoded))) = Ok encoded
      /\ DatabricksClientMore.create_notebook_from_template
           up p template overwrite w
         = match DatabricksClientMore.workspace_upload up p
                   (ascii_text (b64encode encoded))
                   DatabricksClientMore.IMPORT_AUTO overwrite w with
           | (Ok _, w1) =>
               (Ok (DatabricksClientMore.Uploaded p
                      ("Notebook created successfully at " +:+ p)), w1)
           | (Raise e, w1) =>
               (Ok (DatabricksClientMore.UploadFailed (exn_str e)), w1)
           end.
Proof.
  destruct (existsb is_surrogate template) eqn:Hs.
  - destruct (encode_utf8_surrogate template Hs) as (e & E & _).
    exists (exn_str e).
    unfold DatabricksClientMore.create_notebook_from_template,
      try_catch, bind, lift.
    now rewrite E.
  - destruct (encode_utf8_total template Hs) as [encoded E].
    exists encoded. split; [exact E|].
    split; [apply b64decode_b64encode_text|].
    unfold DatabricksClientMore.create_notebook_from_template,
      try_catch, bind, lift.
    rewrite E.
    now destruct (DatabricksClientMore.workspace_upload up p _ _ overwrite w)
      as [[[]|e] w1].
Qed.

(** X9. [get_clusters] raises nothing: it returns one entry per listed
    cluster, in order, with state ["unknown"] for a cluster without state,
    when the listing completes, and the empty list when the listing fails,
    also after yielding clusters. *)
Theorem get_clusters_silent_empty {W : Type}
    (client : DatabricksClientMore.MoreCapabilities W) (w : W) :
  let '((clusters, failure), w1) :=
    DatabricksClientMore.clusters_list client w in
  DatabricksClientMore.get_clusters client w
  = (Ok match failure with
        | None => map DatabricksClientMore.cluster_entry clusters
        | Some _ => []
        end, w1).
Proof.
  unfold DatabricksClientMore.get_clusters, try_catch.
  destruct (DatabricksClientMore.clusters_list client w)
    as [[clusters [e|]] w1]; [reflexivity|].
  f_equal. f_equal.
  assert (H : forall cs acc,
            DatabricksClientMore.append_clusters cs acc
            = acc ++ map DatabricksClientMore.cluster_entry cs).
  { induction cs as [|c cs IH]; intros acc.
    - cbn. now rewrite app_nil_r.
    - cbn [DatabricksClientMore.append_clusters map].
      now rewrite IH, <- app_assoc. }
  apply H.
Qed.

(** X10. The constructor: an argument that is [None] or empty gives way to
    the environment variable; when host or token is still missing or empty
    the constructor raises [ValueError] before any SDK object is built (the
    world is unchanged). An instance it returns has a non-empty host and
    token, the given ones when these were not empty, and an
    [Authorization] header ["Bearer " + token]. *)
Theorem init_credentials {W : Type}
    (sdk : DatabricksClientMore.Construction W)
    (host token : option string) (w : W) :
  let h := DatabricksClientMore.or_else host
             (DatabricksClientMore.getenv sdk "DATABRICKS_HOST" w) in
  let t := DatabricksClientMore.or_else token
             (DatabricksClientMore.getenv sdk "DATABRICKS_TOKEN" w) in
  (DatabricksClient.str_truthy h && DatabricksClient.str_truthy t = false ->
   DatabricksClientMore.__init__ sdk host token w
   = (Raise DatabricksClientMore.missing_credentials, w))
  /\ (forall self w1,
        DatabricksClientMore.__init__ sdk host token w = (Ok self, w1) ->
        Some (DatabricksClientMore.self_host self) = h
        /\ Some (DatabricksClientMore.self_token self) = t
        /\ DatabricksClientMore.self_host self <> ""%string
        /\ DatabricksClientMore.self_token self <> ""%string
        /\ (DatabricksClient.str_truthy host = true ->
            Some (DatabricksClientMore.self_host self) = host)
        /\ (DatabricksClient.str_truthy token = true ->
            Some (DatabricksClientMore.self_token self) = token)
        /\ DatabricksClientMore.headers self !! "Authorization"%string
           = Some ("Bearer " +:+ DatabricksClientMore.self_token self)).
Proof.
  intros h t. unfold DatabricksClientMore.__init__. fold h t.
  split.
  - intros Hmissing.
    destruct h as [hs|], t as [ts|]; try reflexivity.
    apply andb_false_iff in Hmissing.
    destruct Hmissing as [-> | ->]; cbn [negb orb]; [reflexivity|].
    now rewrite orb_true_r.
  - intros self w1.
    destruct h as [hs|] eqn:Hh, t as [ts|] eqn:Ht; try discriminate.
    destruct (DatabricksClient.str_truthy (Some hs)) eqn:Hhs;
      cbn [negb orb]; [|discriminate].
    destruct (DatabricksClient.str_truthy (Some ts)) eqn:Hts;
      cbn [negb]; [|discriminate].
    destruct (DatabricksClientMore.new_workspace_client sdk hs ts w)
      as [[wc|e] w2]; [|discriminate].
    intros E. inversion E; subst self w1. clear E.
    cbn [DatabricksClientMore.self_host DatabricksClientMore.self_token
         DatabricksClientMore.headers].
    assert (Hne : forall s, DatabricksClient.str_truthy (Some s) = true ->
                            s <> ""%string).
    { intros s Hs ->. discriminate. }
    split; [reflexivity|]. split; [reflexivity|].
    split; [now apply Hne|]. split; [now apply Hne|].
    split; [|split].
    + intros Hhost. subst h. unfold DatabricksClientMore.or_else in Hh.
      now rewrite Hhost in Hh.
    + intros Htoken. subst t. unfold DatabricksClientMore.or_else in Ht.
      now rewrite Htoken in Ht.
    + rewrite lookup_insert_ne by discriminate. apply lookup_insert_eq.
Qed.

Lemma init_credentials_witness :
  DatabricksClientMore.__init__ MoreExamples.sdk_with_env
    (Some "https://given.cloud.databricks.com"%string) (Some ""%string) tt
  = (Ok {| DatabricksClientMore.self_host :=
             "https://given.cloud.databricks.com";
           DatabricksClientMore.self_token := "dapi-env";
           DatabricksClientMore.workspace_client := tt;
           DatabricksClientMore.headers :=
             <["Content-Type"%string := "application/json"%string]>
               (<["Authorization"%string := "Bearer dapi-env"%string]> ∅) |},
     tt)
  /\ Some "https://given.cloud.databricks.com"%string
     = Some "https://given.cloud.databricks.com"%string.
Proof.
  assert (E : DatabricksClientMore.__init__ MoreExamples.sdk_with_env
                (Some "https://given.cloud.databricks.com"%string)
                (Some ""%string) tt
              = (Ok {| DatabricksClientMore.self_host :=
                         "https://given.cloud.databricks.com";
                       DatabricksClientMore.self_token := "dapi-env";
                       DatabricksClientMore.workspace_client := tt;
                       DatabricksClientMore.headers :=
                         <["Content-Type"%string := "application/json"%string]>
                           (<["Authorization"%string
                               := "Bearer dapi-env"%string]> ∅) |}, tt))
    by reflexivity.
  split; [exact E|].
  destruct (proj2 (init_credentials MoreExamples.sdk_with_env
                     (Some "https://given.cloud.databricks.com"%string)
                     (Some ""%string) tt) _ _ E)
    as (_ & _ & _ & _ & Hhost & _).
  exact (Hhost eq_refl).
Defined.

(** ** Outcomes of a query *)

(** X11. A query that returns is a success exactly when the statement ran on
    the resolved warehouse and came back in the SUCCEEDED state. A statement
    that comes back in any other state gives the failure that carries its
    statement id and a message that starts with
    ["Query failed with state: "]. *)
Theorem sql_success_iff {W : Type}
    (self : DatabricksClient.WorkspaceClient W)
    (sql : string) (wid : option string) (w : W)
    (r : DatabricksClient.sql_result) (w' : W) :
  DatabricksClient.execute_sql_query self sql wid w = (Ok r, w') ->
  (DatabricksClient.success r = true <->
   exists wh w1 stmt st,
     DatabricksClient.resolve_warehouse self wid w = (Ok (inr wh), w1)
     /\ DatabricksClient.execute_statement self wh sql "30s" w1
        = (Ok stmt, w')
     /\ DatabricksClient.status stmt = Some st
     /\ DatabricksClient.state st = Some DatabricksClient.SUCCEEDED)
  /\ (forall wh w1 stmt st,
        DatabricksClient.resolve_warehouse self wid w = (Ok (inr wh), w1) ->
        DatabricksClient.execute_statement self wh sql "30s" w1
        = (Ok stmt, w') ->
        DatabricksClient.status stmt = Some st ->
        DatabricksClient.state st <> Some DatabricksClient.SUCCEEDED ->
        r = DatabricksClient.SqlFailureOf
              (DatabricksClient.failure_message st)
              (DatabricksClient.statement_id stmt)
        /\ exists detail,
             DatabricksClient.failure_message st
             = "Query failed with state: " +:+ detail).
Proof.
  intros Hrun.
  assert (Hstate : forall s,
            DatabricksClient.is_succeeded s = true
            <-> s = Some DatabricksClient.SUCCEEDED).
  { intros [[]|]; cbn; split; intros H; congruence. }
  split; [split|].
  - intros Hsucc.
    unfold DatabricksClient.execute_sql_query, try_catch, bind in Hrun.
    destruct (DatabricksClient.resolve_warehouse self wid w)
      as [[[early|wh]|e] w1] eqn:Hres.
    + cbn [ret] in Hrun. inversion Hrun; subst.
      unfold DatabricksClient.resolve_warehouse in Hres.
      destruct (negb (DatabricksClient.str_truthy wid)).
      * unfold bind in Hres.
        destruct (DatabricksClient.warehouses_list self w)
          as [[[|first others]|e] w2]; cbn [ret] in Hres;
          inversion Hres; subst; discriminate.
      * discriminate.
    + unfold DatabricksClient.run_statement, bind in Hrun.
      destruct (DatabricksClient.execute_statement self wh sql "30s" w1)
        as [[stmt|e] w2] eqn:Hexec.
      * destruct (DatabricksClient.status stmt) as [st|] eqn:Hst.
        -- destruct (DatabricksClient.is_succeeded (DatabricksClient.state st))
             eqn:Hs; cbn [ret] in Hrun; inversion Hrun; subst.
           ++ exists wh, w1, stmt, st. repeat split; try assumption.
              now apply Hstate.
           ++ discriminate.
        -- cbn [raise ret] in Hrun. inversion Hrun; subst. discriminate.
      * cbn [ret] in Hrun. inversion Hrun; subst. discriminate.
    + cbn [ret] in Hrun. inversion Hrun; subst. discriminate.
  - intros (wh & w1 & stmt & st & Hres & Hexec & Hst & Hs).
    rewrite (SqlFacts.execute_sql_query_succeeded self sql wid w wh w1
               stmt w' st Hres Hexec Hst Hs) in Hrun.
    now inversion Hrun.
  - intros wh w1 stmt st Hres Hexec Hst Hs.
    rewrite (SqlFacts.execute_sql_query_resolved self sql wid w wh w1 Hres)
      in Hrun.
    unfold try_catch, DatabricksClient.run_statement, bind in Hrun.
    rewrite Hexec, Hst in Hrun.
    destruct (DatabricksClient.is_succeeded (DatabricksClient.state st))
      eqn:Hs'.
    + apply Hstate in Hs'. contradiction.
    + cbn [ret] in Hrun. inversion Hrun; subst. split; [reflexivity|].
      unfold DatabricksClient.failure_message.
      destruct (DatabricksClient.error st) as [err|].
      * exists (DatabricksClient.state_str (DatabricksClient.state st)
                +:+ ", Error: "
                +:+ match DatabricksClient.message err with
                    | Some m => m
                    | None => "None"
                    end).
        reflexivity.
      * now exists (DatabricksClient.state_str (DatabricksClient.state st)).
Qed.

Lemma sql_success_iff_witness :
  DatabricksClient.success
    (DatabricksClient.SqlSuccess [] (Some "01ef-statement"%string)
       (Some "wh-first"%string)) = true
  <-> exists wh w1 stmt st,
        DatabricksClient.resolve_warehouse
          (SqlExamples.warehouse_client None) None tt = (Ok (inr wh), w1)
        /\ DatabricksClient.execute_statement
             (SqlExamples.warehouse_client None) wh "SELECT 1" "30s" w1
           = (Ok stmt, tt)
        /\ DatabricksClient.status stmt = Some st
        /\ DatabricksClient.state st = Some DatabricksClient.SUCCEEDED.
Proof.
  exact (proj1 (sql_success_iff (SqlExamples.warehouse_client None)
                  "SELECT 1" None tt _ tt eq_refl)).
Defined.

(** ** No cell of a row is lost when its keys do not collide *)

Module CellFacts.
Import DatabricksClient.

Lemma decimal_inj (a b : N) : decimal a = decimal b -> a = b.
Proof.
  assert (Hnil : forall n, N.to_uint n <> Decimal.Nil).
  { intros [|q]; [discriminate | apply DecimalPos.Unsigned.to_uint_nonnil]. }
  unfold decimal. intros H.
  apply DecimalN.Unsigned.to_uint_inj.
  pose proof (NilZero.usu _ (Hnil a)) as Ha.
  pose proof (NilZero.usu _ (Hnil b)) as Hb.
  rewrite H in Ha. rewrite Ha in Hb. now inversion Hb.
Qed.

Lemma generic_name_inj (i j : nat) :
  generic_name i = generic_name j -> i = j.
Proof.
  unfold generic_name. intros H. cbn in H. inversion H as [H'].
  apply decimal_inj in H'. lia.
Qed.

(** Keys that are new and pairwise different each add one entry. *)
Lemma fill_row_size (cols : list string) (row : list sql_value) :
  forall (i : nat) (d : gmap string sql_value),
    (forall j, (j < length row)%nat -> d !! column_name cols (i + j) = None) ->
    (forall j k, (j < k < length row)%nat ->
                 column_name cols (i + j) <> column_name cols (i + k)) ->
    size (fill_row cols i row d) = (size d + length row)%nat.
Proof.
  induction row as [|v row IH]; intros i d Hnew Hdiff.
  - cbn. lia.
  - cbn [fill_row length]. rewrite IH.
    + rewrite map_size_insert_None; [lia|].
      specialize (Hnew 0%nat). rewrite Nat.add_0_r in Hnew.
      apply Hnew. cbn [length]. lia.
    + intros j Hj. replace (S i + j)%nat with (i + S j)%nat by lia.
      rewrite lookup_insert_ne.
      * apply Hnew. cbn [length]. lia.
      * specialize (Hdiff 0%nat (S j)). rewrite Nat.add_0_r in Hdiff.
        apply Hdiff. cbn [length]. lia.
    + intros j k Hjk.
      replace (S i + j)%nat with (i + S j)%nat by lia.
      replace (S i + k)%nat with (i + S k)%nat by lia.
      apply Hdiff. cbn [length]. lia.
Qed.

Lemma row_keeps_cells (cols : list string) (row : list sql_value) :
  (forall j k, (j < k < length row)%nat ->
               column_name cols j <> column_name cols k) ->
  size (row_to_dict cols row) = length row
  /\ forall i v, row !! i = Some v ->
                 row_to_dict cols row !! column_name cols i = Some v.
Proof.
  intros Hdiff. split.
  - unfold row_to_dict. rewrite fill_row_size.
    + now rewrite map_size_empty.
    + intros j _. apply lookup_empty.
    + intros j k Hjk. now apply Hdiff.
  - intros i v Hv.
    apply (RowFacts.fill_row_last cols row 0 ∅ i v Hv).
    intros j v' Hij Hv' E. cbn [Nat.add] in E.
    apply (Hdiff i j); [|now symmetry].
    split; [exact Hij|]. now apply (lookup_lt_Some row j v').
Qed.

End CellFacts.

(** X12. A row loses no cell when its keys cannot collide: with pairwise
    different recovered column names that cover the row, and likewise when
    no name was recovered at all, the row's dictionary has exactly one
    entry per cell and every cell is found under the key of its position. *)
Theorem row_keeps_its_cells
    (cols : list string) (row : list DatabricksClient.sql_value) :
  (NoDup cols /\ (length row <= length cols)%nat) \/ cols = [] ->
  size (DatabricksClient.row_to_dict cols row) = length row
  /\ forall i v,
       row !! i = Some v ->
       DatabricksClient.row_to_dict cols row
         !! DatabricksClient.column_name cols i = Some v.
Proof.
  intros H. apply CellFacts.row_keeps_cells. intros j k Hjk E.
  destruct H as [[Hnd Hlen] | ->].
  - rewrite !RowFacts.column_name_recovered in E by lia.
    destruct (lookup_lt_is_Some_2 cols j) as [x Hx]; [lia|].
    destruct (lookup_lt_is_Some_2 cols k) as [y Hy]; [lia|].
    rewrite (nth_lookup_Some cols j ""%string x Hx) in E.
    rewrite (nth_lookup_Some cols k ""%string y Hy) in E. subst y.
    pose proof (proj1 (NoDup_alt cols) Hnd j k x Hx Hy). lia.
  - rewrite !RowFacts.column_name_positional in E by (cbn; lia).
    apply CellFacts.generic_name_inj in E. lia.
Qed.

Lemma row_keeps_its_cells_witness :
  size (DatabricksClient.row_to_dict ["id"; "title"]%string
          [Some "2"; Some "notes.pdf"]%string) = 2%nat
  /\ forall i v,
       [Some "2"; Some "notes.pdf"]%string !! i = Some v ->
       DatabricksClient.row_to_dict ["id"; "title"]%string
         [Some "2"; Some "notes.pdf"]%string
         !! DatabricksClient.column_name ["id"; "title"]%string i = Some v.
Proof.
  apply (row_keeps_its_cells ["id"; "title"]%string
           [Some "2"; Some "notes.pdf"]%string).
  left. split; [|cbn; lia].
  apply NoDup_cons. split; [|apply NoDup_singleton].
  intros Hin. apply list_elem_of_singleton in Hin. discriminate.
Defined.

(** A column that is itself named like a positional key collides with the
    positional key of a later cell, and the earlier cell is lost. *)
Lemma positional_name_collision :
  DatabricksClient.row_to_dict ["col_1"]%string
    [Some "first"; Some "second"]%string
  = {[ "col_1"%string := Some "second"%string ]}.
Proof. vm_compute. reflexivity. Qed.

(** * Further properties of the routes *)

(** ** The conversation id of a query *)

(** X13. A query that its body answers carries a conversation id: the one
    of the request when that is not empty, otherwise one drawn from
    [uuid4]. A query that fails by an exception carries none, even when the
    request had one. *)
Theorem query_conversation_id {W : Type}
    (app : Backend.Collaborators W) (message : Backend.ChatMessage) (w : W) :
  (forall response w1,
     Backend.query_pdf_body app message w = (Ok response, w1) ->
     Backend.query_pdf app message w = (Ok response, w1)
     /\ exists c,
          Backend.conversation_id response = Some c
          /\ (DatabricksClient.str_truthy (Backend.msg_conversation_id message)
              = true -> Backend.msg_conversation_id message = Some c)
          /\ (DatabricksClient.str_truthy (Backend.msg_conversation_id message)
              = false -> exists wa wb, Backend.uuid4 app wa = (Ok c, wb)))
  /\ (forall e w1,
        Backend.query_pdf_body app message w = (Raise e, w1) ->
        exists response,
          Backend.query_pdf app message w = (Ok response, w1)
          /\ Backend.conversation_id response = None).
Proof.
  split.
  - intros response w1 Hbody. split.
    { apply BackendFacts.query_pdf_passes. exact Hbody. }
    revert Hbody.
    unfold Backend.query_pdf_body, Backend.global, bind, ret, raise.
    destruct (Backend.ai_engine app w); [|discriminate].
    destruct (Backend.pdf_manager app w) eqn:Hpm.
    + rewrite Hpm.
      destruct (Backend.get_pdf_content app _ _ w) as [[[[|b l]|]|e] w2];
        try discriminate.
      destruct (Backend.msg_conversation_id message) as [c|] eqn:Hc.
      * destruct (String.eqb c "") eqn:Hempty.
        -- destruct (Backend.uuid4 app w2) as [[u|e] w3] eqn:Hu;
             [|discriminate].
           destruct (Backend.ai_engine app w3); [|discriminate].
           destruct (Backend.query_pdf_with_databricks_ai app _ _ _ _ w3)
             as [[result|e] w4]; [|discriminate].
           destruct (Backend.r_success result); [|discriminate].
           intros E. inversion E; subst. exists u.
           cbn [Backend.conversation_id DatabricksClient.str_truthy].
           rewrite Hempty. cbn [negb].
           split; [reflexivity|]. split; [discriminate|]. eauto.
        -- destruct (Backend.ai_engine app w2); [|discriminate].
           destruct (Backend.query_pdf_with_databricks_ai app _ _ _ _ w2)
             as [[result|e] w4]; [|discriminate].
           destruct (Backend.r_success result); [|discriminate].
           intros E. inversion E; subst. exists c.
           cbn [Backend.conversation_id DatabricksClient.str_truthy].
           rewrite Hempty. cbn [negb].
           split; [reflexivity|]. split; [reflexivity | discriminate].
      * destruct (Backend.uuid4 app w2) as [[u|e] w3] eqn:Hu;
          [|discriminate].
        destruct (Backend.ai_engine app w3); [|discriminate].
        destruct (Backend.query_pdf_with_databricks_ai app _ _ _ _ w3)
          as [[result|e] w4]; [|discriminate].
        destruct (Backend.r_success result); [|discriminate].
        intros E. inversion E; subst. exists u.
        cbn [Backend.conversation_id DatabricksClient.str_truthy].
        split; [reflexivity|]. split; [discriminate|]. eauto.
    + destruct (Backend.new_PDFManager app w) as [[m|e] w2]; [|discriminate].
      destruct (Backend.pdf_manager app (Backend.set_pdf_manager app m w2));
        [|discriminate].
      destruct (Backend.get_pdf_content app _ _ _) as [[[[|b l]|]|e] w3];
        try discriminate.
      destruct (Backend.msg_conversation_id message) as [c|] eqn:Hc.
      * destruct (String.eqb c "") eqn:Hempty.
        -- destruct (Backend.uuid4 app w3) as [[u|e] w4] eqn:Hu;
             [|discriminate].
           destruct (Backend.ai_engine app w4); [|discriminate].
           destruct (Backend.query_pdf_with_databricks_ai app _ _ _ _ w4)
             as [[result|e] w5]; [|discriminate].
           destruct (Backend.r_success result); [|discriminate].
           intros E. inversion E; subst. exists u.
           cbn [Backend.conversation_id DatabricksClient.str_truthy].
           rewrite Hempty. cbn [negb].
           split; [reflexivity|]. split; [discriminate|]. eauto.
        -- destruct (Backend.ai_engine app w3); [|discriminate].
           destruct (Backend.query_pdf_with_databricks_ai app _ _ _ _ w3)
             as [[result|e] w5]; [|discriminate].
           destruct (Backend.r_success result); [|discriminate].
           intros E. inversion E; subst. exists c.
           cbn [Backend.conversation_id DatabricksClient.str_truthy].
           rewrite Hempty. cbn [negb].
           split; [reflexivity|]. split; [reflexivity | discriminate].
      * destruct (Backend.uuid4 app w3) as [[u|e] w4] eqn:Hu;
          [|discriminate].
        destruct (Backend.ai_engine app w4); [|discriminate].
        destruct (Backend.query_pdf_with_databricks_ai app _ _ _ _ w4)
          as [[result|e] w5]; [|discriminate].
        destruct (Backend.r_success result); [|discriminate].
        intros E. inversion E; subst. exists u.
        cbn [Backend.conversation_id DatabricksClient.str_truthy].
        split; [reflexivity|]. split; [discriminate|]. eauto.
  - intros e w1 Hbody. eexists. split.
    + apply BackendFacts.query_pdf_catches. exact Hbody.
    + reflexivity.
Qed.

Lemma query_conversation_id_witness :
  exists c,
    Some "3f2b8c1e-0000-4000-8000-000000000001"%string = Some c
    /\ (DatabricksClient.str_truthy
          (Backend.msg_conversation_id BackendExamples.what_is_this) = true ->
        Backend.msg_conversation_id BackendExamples.what_is_this = Some c)
    /\ (DatabricksClient.str_truthy
          (Backend.msg_conversation_id BackendExamples.what_is_this) = false ->
        exists wa wb,
          Backend.uuid4
            (BackendExamples.app_with
               (Ok (Some Examples.pdf_header))
               (Ok {| Backend.r_success := Some true;
                      Backend.r_answer := Some "A PDF header."%string;
                      Backend.r_metadata := None;
                      Backend.r_error := None |})) wa = (Ok c, wb)).
Proof.
  exact (proj2 (proj1 (query_conversation_id
           (BackendExamples.app_with
              (Ok (Some Examples.pdf_header))
              (Ok {| Backend.r_success := Some true;
                     Backend.r_answer := Some "A PDF header."%string;
                     Backend.r_metadata := None;
                     Backend.r_error := None |}))
           BackendExamples.what_is_this tt) _ tt eq_refl)).
Defined.

(** Close a branch of a route: name the outcome, then settle each part of
    the statement from the equations at hand. *)
Ltac route_leaf :=
  do 3 eexists; (split; [reflexivity|]);
  repeat first [split | intro]; simplify_eq;
  cbn [App.databricks_api App.pdf_manager App.ai_engine] in *;
  try congruence; try reflexivity; eauto 10.

(** ** Connecting *)

(** X14. [connect_databricks] raises nothing. When the API object cannot be
    built no global changes. Once it is built it stays installed whatever
    the connection test says: after a test that reports failure
    [get_databricks_connection] hands it out, while the PDF manager and the
    AI engine are as before. A success response means all three globals
    are set. *)
Theorem connect_databricks_globals {E : Type} (cls : App.Classes E)
    (host token : string) (g : App.Globals cls) (e : E) :
  exists r g1 e1,
    App.connect_databricks cls host token (g, e) = (Ok r, (g1, e1))
    /\ (forall message user url,
          r = App.ConnectOk message user url ->
          exists api manager engine,
            g1 = {| App.databricks_api := Some api;
                    App.pdf_manager := Some manager;
                    App.ai_engine := Some engine |})
    /\ (forall err e',
          App.new_DatabricksAPIIntegration cls host token e = (Raise err, e') ->
          r = App.ConnectFailed (exn_str err) /\ g1 = g /\ e1 = e')
    /\ (forall api e' d e'' error,
          App.new_DatabricksAPIIntegration cls host token e = (Ok api, e') ->
          App.api_test_connection cls api e' = (Ok d, e'') ->
          App.cd_success d = Some false ->
          App.cd_error d = Some error ->
          r = App.ConnectFailed error
          /\ App.databricks_api g1 = Some api
          /\ App.pdf_manager g1 = App.pdf_manager g
          /\ App.ai_engine g1 = App.ai_engine g
          /\ App.get_databricks_connection cls (g1, e1) = (Ok api, (g1, e1))).
Proof.
  unfold App.connect_databricks, App.outside, App.set_databricks_api,
    App.set_pdf_manager, App.set_ai_engine, App.item, try_catch, bind.
  destruct (App.new_DatabricksAPIIntegration cls host token e)
    as [[api|err] e1] eqn:Hnew; [|route_leaf].
  destruct (App.api_test_connection cls api e1) as [[d|err] e2] eqn:Htest;
    [|route_leaf].
  destruct (App.cd_success d) as [[|]|] eqn:Hsucc; cbn [ret raise];
    [| |route_leaf].
  - destruct (App.new_PDFManager cls (App.api_client cls api) e2)
      as [[m|err] e3]; [|route_leaf].
    destruct (App.new_DatabricksAIEngine cls (App.api_client cls api) None e3)
      as [[en|err] e4]; [|route_leaf].
    destruct (App.cd_user d) as [user|]; cbn [ret raise]; [|route_leaf].
    destruct (App.cd_workspace_url d) as [url|]; cbn [ret raise];
      route_leaf.
  - destruct (App.cd_error d) as [error|] eqn:Herr; cbn [ret raise];
      route_leaf.
Qed.

Lemma connect_databricks_globals_witness :
  App.connect_databricks (AppExamples.classes (Ok AppExamples.refused))
    "https://example.cloud.databricks.com" "dapi-wrong"
    (AppExamples.nothing_yet _, 0%nat)
  = (Ok (App.ConnectFailed "Invalid access token"),
     (AppExamples.globals_of _ (Some 0%nat) None None, 1%nat))
  /\ App.get_databricks_connection
       (AppExamples.classes (Ok AppExamples.refused))
       (AppExamples.globals_of _ (Some 0%nat) None None, 1%nat)
     = (Ok 0%nat, (AppExamples.globals_of _ (Some 0%nat) None None, 1%nat)).
Proof.
  destruct (connect_databricks_globals
              (AppExamples.classes (Ok AppExamples.refused))
              "https://example.cloud.databricks.com" "dapi-wrong"
              (AppExamples.nothing_yet _) 0%nat)
    as (r & g1 & e1 & E & _ & _ & Hrefused).
  assert (E' : App.connect_databricks
                 (AppExamples.classes (Ok AppExamples.refused))
                 "https://example.cloud.databricks.com" "dapi-wrong"
                 (AppExamples.nothing_yet _, 0%nat)
               = (Ok (App.ConnectFailed "Invalid access token"),
                  (AppExamples.globals_of _ (Some 0%nat) None None, 1%nat)))
    by reflexivity.
  rewrite E' in E. inversion E; subst r g1 e1.
  split; [exact E'|].
  exact (proj2 (proj2 (proj2 (proj2
           (Hrefused 0%nat 1%nat AppExamples.refused 1%nat
              "Invalid access token"%string
              eq_refl eq_refl eq_refl eq_refl))))).
Defined.

(** ** Configuring the AI provider *)

(** X15. [configure_ai] raises nothing and never touches the API object or
    the PDF manager. Only the provider ["databricks"] replaces the AI
    engine: configuring ["openai"] leaves the engine as it was, and an
    unsupported provider, or ["openai"] without a key, changes nothing at
    all and reports a failure. *)
Theorem configure_ai_effects {E : Type} (cls : App.Classes E)
    (config : App.AIConfig) (db : App.API cls)
    (g : App.Globals cls) (e : E) :
  exists r g1 e1,
    App.configure_ai cls config db (g, e) = (Ok r, (g1, e1))
    /\ App.databricks_api g1 = App.databricks_api g
    /\ App.pdf_manager g1 = App.pdf_manager g
    /\ (App.provider config <> "databricks"%string ->
        App.ai_engine g1 = App.ai_engine g)
    /\ (App.provider config <> "databricks"%string ->
        App.provider config <> "openai"%string ->
        r = App.ConfigureFailed
              ("Unsupported AI provider: " +:+ App.provider config)
        /\ e1 = e)
    /\ (App.provider config = "openai"%string ->
        DatabricksClient.str_truthy (App.openai_api_key config) = false ->
        r = App.ConfigureFailed "OpenAI API key required" /\ e1 = e)
    /\ (App.provider config = "databricks"%string ->
        forall p m msg, r = App.Configured p m msg ->
        exists engine, App.ai_engine g1 = Some engine).
Proof.
  unfold App.configure_ai, App.outside, App.set_ai_engine, try_catch, bind.
  destruct (String.eqb (App.provider config) "databricks") eqn:Hd.
  - apply String.eqb_eq in Hd.
    destruct (App.new_DatabricksAIEngine cls _ _ e) as [[en|err] e1];
      cbn [ret]; route_leaf.
  - apply String.eqb_neq in Hd.
    destruct (String.eqb (App.provider config) "openai") eqn:Ho.
    + apply String.eqb_eq in Ho.
      destruct (App.openai_api_key config) as [key|] eqn:Hkey.
      * destruct (String.eqb key "") eqn:Hempty; cbn [ret].
        -- route_leaf.
        -- destruct (App.setenv cls "OPENAI_API_KEY" key e) as [[[]|err] e1];
             cbn [ret]; route_leaf;
             cbn [DatabricksClient.str_truthy] in *;
             rewrite Hempty in *; discriminate.
      * cbn [ret]. route_leaf.
    + apply String.eqb_neq in Ho. cbn [ret]. route_leaf.
Qed.

Lemma configure_ai_effects_witness :
  App.configure_ai (AppExamples.classes (Ok AppExamples.accepted))
    {| App.provider := "anthropic"; App.model := "m";
       App.cluster_id := None; App.openai_api_key := None |}
    0%nat (AppExamples.nothing_yet _, 1%nat)
  = (Ok (App.ConfigureFailed "Unsupported AI provider: anthropic"),
     (AppExamples.nothing_yet _, 1%nat)).
Proof.
  destruct (configure_ai_effects
              (AppExamples.classes (Ok AppExamples.accepted))
              {| App.provider := "anthropic"; App.model := "m";
                 App.cluster_id := None; App.openai_api_key := None |}
              0%nat (AppExamples.nothing_yet _) 1%nat)
    as (r & g1 & e1 & E & _ & _ & _ & Hother & _).
  destruct Hother as [Hr He]; [discriminate | discriminate |].
  reflexivity.
Defined.

(** ** Uploading *)

(** X16. Whatever goes wrong in [upload_pdf] leaves the route as an
    exception of status 500 whose detail is the text of the original
    exception. This includes the route's own rejection of a file name that
    does not end in [.pdf]: it is raised with status 400 inside the [try],
    caught, and raised again with status 500 and detail
    ["400: Only PDF files are allowed"], before the file is read or any
    upload is started. *)
Theorem upload_pdf_status {E : Type} (cls : App.Classes E)
    (file : App.UploadFile cls) (create_notebook : bool) (db : App.API cls)
    (w : App.World cls) :
  (forall err w1,
     App.upload_pdf cls file create_notebook db w = (Raise err, w1) ->
     exists detail, err = Backend.http_exception 500 detail)
  /\ (forall name,
        App.filename cls file = Some name ->
        endswith (lower name) ".pdf" = false ->
        App.upload_pdf cls file create_notebook db w
        = (Raise (Backend.http_exception 500
                    "400: Only PDF files are allowed"), w)).
Proof.
  destruct w as [g e]. split.
  - intros err w1.
    unfold App.upload_pdf, App.outside, try_catch, bind.
    destruct (App.filename cls file) as [name|]; cbn [ret raise].
    + destruct (negb (endswith (lower name) ".pdf")); cbn [ret raise].
      * intros H. inversion H. eauto.
      * destruct (App.read cls file e) as [[content|e0] e1].
        -- destruct (App.upload_pdf_workflow cls db content name
                       create_notebook e1) as [[r|e0] e2];
             intros H; inversion H. eauto.
        -- intros H. inversion H. eauto.
    + intros H. inversion H. eauto.
  - intros name Hname Hext.
    unfold App.upload_pdf, try_catch, bind.
    rewrite Hname. cbn [ret raise]. rewrite Hext. reflexivity.
Qed.

Lemma upload_pdf_status_witness :
  App.upload_pdf (AppExamples.classes (Ok AppExamples.accepted))
    (Some "notes.txt"%string) false 0%nat (AppExamples.nothing_yet _, 1%nat)
  = (Raise (Backend.http_exception 500 "400: Only PDF files are allowed"),
     (AppExamples.nothing_yet _, 1%nat)).
Proof.
  exact (proj2 (upload_pdf_status
                  (AppExamples.classes (Ok AppExamples.accepted))
                  (Some "notes.txt"%string) false 0%nat
                  (AppExamples.nothing_yet _, 1%nat))
           "notes.txt"%string eq_refl eq_refl).
Defined.

(** ** Listing the PDFs *)

(** X17. [list_pdfs] raises nothing and never touches the API object or the
    AI engine. A manager that exists is kept and used; one is built only
    when there is none. In a success response [count] is the number of
    [pdfs], and afterwards a manager is installed. *)
Theorem list_pdfs_manager {E : Type} (cls : App.Classes E)
    (db : App.API cls) (g : App.Globals cls) (e : E) :
  exists r g1 e1,
    App.list_pdfs cls db (g, e) = (Ok r, (g1, e1))
    /\ App.databricks_api g1 = App.databricks_api g
    /\ App.ai_engine g1 = App.ai_engine g
    /\ (forall m, App.pdf_manager g = Some m ->
                  g1 = g
                  /\ match App.list_available_pdfs cls m e with
                     | (Ok pdfs, e') =>
                         r = App.Listed cls pdfs (length pdfs) /\ e1 = e'
                     | (Raise err, e') =>
                         r = App.ListFailed cls (exn_str err) /\ e1 = e'
                     end)
    /\ (forall pdfs count,
          r = App.Listed cls pdfs count ->
          count = length pdfs
          /\ exists m, App.pdf_manager g1 = Some m).
Proof.
  unfold App.list_pdfs, App.outside, App.read_globals, App.set_pdf_manager,
    try_catch, bind.
  cbn [ret raise].
  destruct (App.pdf_manager g) as [m|] eqn:Hm; cbn [ret raise].
  - rewrite Hm. cbn [ret raise].
    destruct (App.list_available_pdfs cls m e) as [[pdfs|err] e1] eqn:Hl;
      cbn [ret raise]; route_leaf; rewrite Hl; now split.
  - destruct (App.new_PDFManager cls (App.api_client cls db) e)
      as [[m|err] e1]; cbn [ret raise App.pdf_manager]; [|route_leaf].
    destruct (App.list_available_pdfs cls m e1) as [[pdfs|err] e2];
      cbn [ret raise]; route_leaf.
Qed.

(** ** Conversation history *)

(** X18. The two history routes raise nothing. Without a configured AI
    engine each reports the failure ["400: AI engine not configured"] and
    changes nothing; with an engine each reports success exactly when the
    engine's call returns, and the globals are never changed. *)
Theorem history_routes {E : Type} (cls : App.Classes E)
    (conversation : string) (g : App.Globals cls) (e : E) :
  (exists r e1,
     App.get_conversation_history cls conversation (g, e) = (Ok r, (g, e1))
     /\ match App.ai_engine g with
        | None =>
            r = App.HistoryFailed cls "400: AI engine not configured"
            /\ e1 = e
        | Some engine =>
            match App.get_history cls engine conversation e with
            | (Ok history, e') =>
                r = App.HistoryOf cls conversation history /\ e1 = e'
            | (Raise err, e') =>
                r = App.HistoryFailed cls (exn_str err) /\ e1 = e'
            end
        end)
  /\ (exists r e1,
        App.clear_conversation_history cls conversation (g, e)
        = (Ok r, (g, e1))
        /\ match App.ai_engine g with
           | None =>
               r = App.ClearFailed "400: AI engine not configured" /\ e1 = e
           | Some engine =>
               match App.clear_conversation_context
                       cls engine conversation e with
               | (Ok _, e') =>
                   r = App.Cleared
                         ("Conversation " +:+ conversation +:+ " cleared")
                   /\ e1 = e'
               | (Raise err, e') =>
                   r = App.ClearFailed (exn_str err) /\ e1 = e'
               end
           end).
Proof.
  split.
  - unfold App.get_conversation_history, App.outside, App.read_globals,
      try_catch, bind.
    cbn [ret raise].
    destruct (App.ai_engine g) as [engine|]; cbn [ret raise].
    + destruct (App.get_history cls engine conversation e)
        as [[history|err] e1]; cbn [ret raise];
        do 2 eexists; (split; [reflexivity|]); now split.
    + do 2 eexists. split; [reflexivity|]. now split.
  - unfold App.clear_conversation_history, App.outside, App.read_globals,
      try_catch, bind.
    cbn [ret raise].
    destruct (App.ai_engine g) as [engine|]; cbn [ret raise].
    + destruct (App.clear_conversation_context cls engine conversation e)
        as [[[]|err] e1]; cbn [ret raise];
        do 2 eexists; (split; [reflexivity|]); now split.
    + do 2 eexists. split; [reflexivity|]. now split.
Qed.
